(** * Arista and Endace drivers of netmiko: prompt matching, mode control,
      transfer verification.

    Shallow embedding of [netmiko/arista/arista.py] and
    [netmiko/endace/endace_ssh.py].  Python strings are Stdlib strings (one
    [ascii] per character), keyword dictionaries are [gmap string PyVal], and
    every call that leaves the two files (the channel primitives and the
    methods of the base classes) is an explicit [Call] of a small free monad,
    so that the sequence of calls a method performs can be read off its run. *)

From Stdlib Require Import Ascii ZArith Lia.
From stdpp Require Import base option list strings gmap.

Local Open Scope Z_scope.
Local Open Scope nat_scope.

(** Appending to a string literal reduces under [simpl]. *)
#[local] Arguments String.append !s1 s2 : simpl nomatch.

(** ** Python string primitives *)

Module PyStr.

(** [s.startswith(p)] *)
Fixpoint startswith (p s : string) : bool :=
  match p, s with
  | EmptyString, _ => true
  | String _ _, EmptyString => false
  | String a p', String b s' => Ascii.eqb a b && startswith p' s'
  end.

(** [sub in s] *)
Fixpoint str_in (sub s : string) : bool :=
  startswith sub s ||
  match s with
  | EmptyString => false
  | String _ s' => str_in sub s'
  end.

(** The scan of [s.replace(old, new)] for a non-empty [old]: leftmost
    occurrences, never overlapping.  [skip] counts the characters of the
    occurrence just replaced that are still to be passed over. *)
Fixpoint replace_from (old new : string) (skip : nat) (s : string) : string :=
  match s with
  | EmptyString => EmptyString
  | String c s' =>
      match skip with
      | S k => replace_from old new k s'
      | O =>
          if startswith old s
          then new +:+ replace_from old new (String.length old - 1) s'
          else String c (replace_from old new 0 s')
      end
  end.

(** With an empty [old], Python puts [new] before every character and at
    the end. *)
Fixpoint insert_after (new s : string) : string :=
  match s with
  | EmptyString => EmptyString
  | String c s' => String c (new +:+ insert_after new s')
  end.

(** [s.replace(old, new)] *)
Definition replace (old new s : string) : string :=
  match old with
  | EmptyString => new +:+ insert_after new s
  | String _ _ => replace_from old new 0 s
  end.

(** [s[:n]] for a non-negative [n] *)
Fixpoint take (n : nat) (s : string) : string :=
  match n, s with
  | S n', String c s' => String c (take n' s')
  | _, _ => EmptyString
  end.

(** The characters [re.escape] puts a backslash before (Python 3.7 and
    later): [()[]{}?*+-|^$\.&~# \t\n\r\v\f]. *)
Definition special_chars : list ascii :=
  [ "("; ")"; "["; "]"; "{"; "}"; "?"; "*"; "+"; "-"; "|"; "^"; "$"; "\";
    "."; "&"; "~"; "#"; " ";
    ascii_of_nat 9; ascii_of_nat 10; ascii_of_nat 13; ascii_of_nat 11;
    ascii_of_nat 12 ]%char.

Definition is_special (c : ascii) : bool :=
  existsb (Ascii.eqb c) special_chars.

(** [re.escape(s)] *)
Fixpoint re_escape (s : string) : string :=
  match s with
  | EmptyString => EmptyString
  | String c s' =>
      if is_special c then String "\"%char (String c (re_escape s'))
      else String c (re_escape s')
  end.

(** [re.DOTALL] and [re.IGNORECASE] *)
Definition DOTALL : Z := 16%Z.
Definition IGNORECASE : Z := 2%Z.

End PyStr.

Import PyStr.

(** ** Values, exceptions and calls to collaborators *)

(** The values the drivers hand around as [Any]. *)
Inductive PyVal :=
| PyNone
| PyStr (s : string)
| PyInt (z : Z)
| PyBool (b : bool)
| PyObj (id : nat).

(** What [send_command] and [send_command_timing] return:
    [Union[str, List[Any], Dict[str, Any]]]. *)
Inductive CmdOutput :=
| OutStr (s : string)
| OutStructured (v : list PyVal).

(** Exceptions.  The three first are raised by the two files themselves;
    [External] stands for whatever a collaborator raises (a read timeout, a
    parse failure of [process_md5], ...). *)
Inductive Exn :=
| ValueError (msg : string)
| NotImplementedError
| AssertionError
| External (cls msg : string).

Definition exn_class (e : Exn) : string :=
  match e with
  | ValueError _ => "ValueError"
  | NotImplementedError => "NotImplementedError"
  | AssertionError => "AssertionError"
  | External cls _ => cls
  end.

Definition exn_message (e : Exn) : string :=
  match e with
  | ValueError msg => msg
  | NotImplementedError => ""
  | AssertionError => ""
  | External _ msg => msg
  end.

(** Calls that leave the two source files: the channel primitives and the
    methods inherited from [CiscoSSHConnection], [CiscoFileTransfer] and
    their bases.  Keyword arguments are listed under their Python names. *)
Inductive Call :=
| write_channel (out_data : string)
| read_until_pattern (pattern : string)
| send_command_timing (command_string : string) (strip_command strip_prompt : bool)
| send_command (command_string : string) (read_timeout : Z)
| process_md5 (md5_output : string)
| super_enable (cmd pattern : string) (enable_pattern : option string) (re_flags : Z)
| super_check_config_mode (check_string pattern : string)
| super_config_mode (config_command pattern : string) (re_flags : Z)
| super_save_config (cmd : string) (confirm : bool) (confirm_response : string)
| super_init_connection (args : list PyVal) (kwargs : gmap string PyVal)
| super_init_transfer (ssh_conn : PyVal) (source_file dest_file : string)
    (file_system : option string) (direction : string) (kwargs : gmap string PyVal).

Definition ret_type (c : Call) : Type :=
  match c with
  | write_channel _ => unit
  | read_until_pattern _ => string
  | send_command_timing _ _ _ => CmdOutput
  | send_command _ _ => CmdOutput
  | process_md5 _ => string
  | super_enable _ _ _ _ => string
  | super_check_config_mode _ _ => bool
  | super_config_mode _ _ _ => string
  | super_save_config _ _ _ => string
  | super_init_connection _ _ => unit
  | super_init_transfer _ _ _ _ _ _ => unit
  end.

(** ** Programs over calls *)

Inductive Prog (A : Type) : Type :=
| Ret (a : A)
| Raise (e : Exn)
| Do (c : Call) (k : ret_type c -> Prog A).

Arguments Ret {A} a.
Arguments Raise {A} e.
Arguments Do {A} c k.

Fixpoint bind {A B : Type} (p : Prog A) (f : A -> Prog B) : Prog B :=
  match p with
  | Ret a => f a
  | Raise e => Raise e
  | Do c k => Do c (fun r => bind (k r) f)
  end.

Definition call (c : Call) : Prog (ret_type c) := Do c Ret.

(** [Prog] with stdpp's monad notations: [x ← p; q], [p;; q], [mret],
    [mthrow]. *)
#[export] Instance prog_ret : MRet Prog := @Ret.
#[export] Instance prog_bind : MBind Prog := fun A B f p => bind p f.
#[export] Instance prog_throw : MThrow Exn Prog := @Raise.

(** One call as the run saw it: the call and what came back. *)
Inductive Event :=
| Ev (c : Call) (r : Exn + ret_type c).

Definition ev_call (e : Event) : Call :=
  match e with Ev c _ => c end.

(** The collaborators: how each call answers in a world [W] (the device,
    the channel buffers, the base classes' attributes). *)
Definition Handler (W : Type) : Type :=
  forall c : Call, W -> (Exn + ret_type c) * W.

Record Outcome (W A : Type) : Type := mkOutcome {
  result : Exn + A;
  world : W;
  trace : list Event
}.

Arguments mkOutcome {W A} result world trace.
Arguments result {W A} o.
Arguments world {W A} o.
Arguments trace {W A} o.

Definition after {W A} (e : Event) (o : Outcome W A) : Outcome W A :=
  mkOutcome (result o) (world o) (e :: trace o).

Fixpoint run {W A : Type} (h : Handler W) (p : Prog A) (w : W) : Outcome W A :=
  match p with
  | Ret a => mkOutcome (inr a) w []
  | Raise e => mkOutcome (inl e) w []
  | Do c k =>
      match h c w with
      | (inl e, w') => mkOutcome (inl e) w' [Ev c (inl e)]
      | (inr r, w') => after (Ev c (inr r)) (run h (k r) w')
      end
  end.

(** [assert isinstance(v, str)] *)
Definition assert_str (v : CmdOutput) : Prog string :=
  match v with
  | OutStr s => Ret s
  | OutStructured _ => Raise AssertionError
  end.

(** [str(v)] inside an f-string, for an [Optional[str]] *)
Definition format_opt (v : option string) : string :=
  match v with
  | Some s => s
  | None => "None"
  end.

(** How often [command_string] went out through [send_command_timing]. *)
Fixpoint count_sent (command_string : string) (t : list Event) : nat :=
  match t with
  | [] => 0
  | e :: t' =>
      match ev_call e with
      | send_command_timing s _ _ =>
          if String.eqb s command_string then S (count_sent command_string t')
          else count_sent command_string t'
      | _ => count_sent command_string t'
      end
  end.

(** The event is a call of the inherited [save_config]. *)
Definition is_save (e : Event) : bool :=
  match ev_call e with
  | super_save_config _ _ _ => true
  | _ => false
  end.

(** ** netmiko/arista/arista.py *)

(** The attributes of a connection that the methods below read. *)
Record Connection := mkConnection {
  RETURN : string;
  base_prompt : string
}.

(** Line feed, the Python literal ["\n"]. *)
Definition LF : string := String (ascii_of_nat 10) EmptyString.

(** The Python literal ["\r\n"]. *)
Definition CRLF : string :=
  String (ascii_of_nat 13) (String (ascii_of_nat 10) EmptyString).

(** [kwargs.get(key)] *)
Definition dict_get (kwargs : gmap string PyVal) (key : string) : PyVal :=
  default PyNone (kwargs !! key).

Definition is_none (v : PyVal) : bool :=
  match v with
  | PyNone => true
  | _ => false
  end.

(** A parameter with a default value is an [option]: [None] when the caller
    leaves the argument out. *)

Module AristaBase.

(** The two replacements of [check_config_mode], in the order of the
    source. *)
Definition strip_quirks (output : string) : string :=
  let output := replace "(s1)" "" output in
  let output := replace "(s2)" "" output in
  output.

Definition check_config_mode (self : Connection)
    (check_string pattern : option string) : Prog bool :=
  let check_string := default ")#" check_string in
  let pattern := default "[>\#]" pattern in
  call (write_channel (RETURN self));;
  output ← call (read_until_pattern pattern);
  let output := replace "(s1)" "" output in
  let output := replace "(s2)" "" output in
  mret (str_in check_string output).

Definition config_mode (self : Connection)
    (config_command pattern : option string) (re_flags : option Z)
    : Prog string :=
  let config_command := default "configure terminal" config_command in
  let pattern := default "" pattern in
  let re_flags := default 0%Z re_flags in
  let re_flags := if (re_flags =? 0)%Z then DOTALL else re_flags in
  let check_string := re_escape ")#" in
  let pattern :=
    if String.eqb pattern ""
    then
      let pattern := re_escape (take 16 (base_prompt self)) in
      pattern +:+ ".*" +:+ check_string
    else pattern in
  call (super_config_mode config_command pattern re_flags).

End AristaBase.

Module AristaSSH.

(** The class body is [pass]: construction is the inherited constructor on
    the caller's own arguments. *)
Definition __init__ (args : list PyVal) (kwargs : gmap string PyVal)
    : Prog unit :=
  call (super_init_connection args kwargs).

End AristaSSH.

Module AristaTelnet.

Definition __init__ (args : list PyVal) (kwargs : gmap string PyVal)
    : Prog unit :=
  let default_enter := dict_get kwargs "default_enter" in
  let kwargs :=
    <["default_enter" :=
        if is_none default_enter then PyStr CRLF else default_enter]> kwargs in
  call (super_init_connection args kwargs).

End AristaTelnet.

(** The attributes of a file transfer that [remote_md5] reads. *)
Record Transfer := mkTransfer {
  source_file : string;
  dest_file : string;
  file_system : string;
  direction : string
}.

(** [Union[str, Sequence[str], None]] *)
Inductive ScpCmd :=
| ScpNone
| ScpStr (s : string)
| ScpSeq (l : list string).

Module AristaFileTransfer.

Definition __init__ (ssh_conn : PyVal) (source_file dest_file : string)
    (file_system : option (option string)) (direction : option string)
    (kwargs : gmap string PyVal) : Prog unit :=
  let file_system := default (Some "/mnt/flash") file_system in
  let direction := default "put" direction in
  call (super_init_transfer ssh_conn source_file dest_file file_system
          direction kwargs).

Definition remote_md5 (self : Transfer) (base_cmd : option string)
    (remote_file : option string) : Prog string :=
  let base_cmd := default "verify /md5" base_cmd in
  let remote_file :=
    match remote_file with
    | None =>
        if String.eqb (direction self) "put" then Some (dest_file self)
        else if String.eqb (direction self) "get" then Some (source_file self)
        else None
    | Some f => Some f
    end in
  let remote_md5_cmd :=
    base_cmd +:+ " file:" +:+ file_system self +:+ "/" +:+
    format_opt remote_file in
  dest_md5 ← call (send_command remote_md5_cmd 600);
  dest_md5 ← assert_str dest_md5;
  dest_md5 ← call (process_md5 dest_md5);
  mret dest_md5.

Definition enable_scp (cmd : option ScpCmd) : Prog unit :=
  mthrow NotImplementedError.

Definition disable_scp (cmd : option ScpCmd) : Prog unit :=
  mthrow NotImplementedError.

End AristaFileTransfer.

(** ** netmiko/endace/endace_ssh.py

    None of the methods below reads an attribute of [self]. *)

Module EndaceSSH.

Definition enable (cmd pattern : option string)
    (enable_pattern : option (option string)) (re_flags : option Z)
    : Prog string :=
  let cmd := default "enable" cmd in
  let pattern := default "" pattern in
  let enable_pattern := default None enable_pattern in
  let re_flags := default IGNORECASE re_flags in
  call (super_enable cmd pattern enable_pattern re_flags).

Definition check_config_mode (check_string pattern : option string)
    : Prog bool :=
  let check_string := default "(config) #" check_string in
  let pattern := default "" pattern in
  call (super_check_config_mode check_string pattern).

Definition config_mode (config_command pattern : option string)
    (re_flags : option Z) : Prog string :=
  let config_command := default "conf t" config_command in
  let output := "" in
  in_config ← check_config_mode None None;
  if negb in_config then
    new_data ← call (send_command_timing config_command false false);
    new_data ← assert_str new_data;
    let output := output +:+ new_data in
    output ←
      (if str_in "to enter configuration mode anyway" output then
         new_data ← call (send_command_timing "YES" false false);
         new_data ← assert_str new_data;
         mret (output +:+ new_data)
       else mret output);
    in_config ← check_config_mode None None;
    if negb in_config
    then mthrow (ValueError "Failed to enter configuration mode")
    else mret output
  else mret output.

Definition save_config (cmd : option string) (confirm : option bool)
    (confirm_response : option string) : Prog string :=
  let cmd := default "configuration write" cmd in
  let confirm := default false confirm in
  let confirm_response := default "" confirm_response in
  enable None None None None;;
  config_mode None None None;;
  call (super_save_config cmd confirm confirm_response).

End EndaceSSH.

(** ** Decorated prompts *)

(** The two supervisor markers of the docstring of [check_config_mode]. *)
Inductive Marker := S1 | S2.

#[export] Instance marker_eq_dec : EqDecision Marker.
Proof. solve_decision. Defined.

Definition marker_text (m : Marker) : string :=
  match m with
  | S1 => "(s1)"
  | S2 => "(s2)"
  end.

(** [Decorated ok u p]: the prompt [p] is the text [u] with markers (those
    that [ok] admits) put between its characters, at any number of places. *)
Inductive Decorated (ok : Marker -> Prop) : string -> string -> Prop :=
| dec_end : Decorated ok "" ""
| dec_char c u p : Decorated ok u p -> Decorated ok (String c u) (String c p)
| dec_mark m u p : ok m -> Decorated ok u p -> Decorated ok u (marker_text m +:+ p).

Definition any_marker : Marker -> Prop := fun _ => True.

(** No marker occurs in [u]. *)
Definition marker_free (u : string) : Prop :=
  str_in "(s1)" u = false /\ str_in "(s2)" u = false.

(** No opening parenthesis in [k]. *)
Fixpoint no_lparen (k : string) : bool :=
  match k with
  | EmptyString => true
  | String c k' => negb (Ascii.eqb c "("%char) && no_lparen k'
  end.

(** ** Simulated collaborators *)

(** A channel whose every read yields [prompt]; the world is the list of
    what was written. *)
Definition prompt_device (prompt : string) : Handler (list string) :=
  fun c w =>
    match c return (Exn + ret_type c) * list string with
    | write_channel d => (inr tt, w ++ [d])
    | read_until_pattern _ => (inr prompt, w)
    | _ => (inl (External "ReadTimeout" ""), w)
    end.

(** An Endace probe.  [locked]: entering configuration mode is answered by
    the warning; [pending]: the warning is waiting for its answer; [obeys]:
    the answer YES is honoured. *)
Record Probe := mkProbe {
  in_config : bool;
  locked : bool;
  pending : bool;
  obeys : bool
}.

Definition warning_text : string :=
  "Type 'YES' to enter configuration mode anyway: ".

Definition probe_device : Handler Probe :=
  fun c w =>
    match c return (Exn + ret_type c) * Probe with
    | super_check_config_mode _ _ => (inr (in_config w), w)
    | send_command_timing s _ _ =>
        if String.eqb s "YES" then
          if pending w
          then (inr (OutStr "YES"), mkProbe (obeys w) (locked w) false (obeys w))
          else (inr (OutStr "% Unrecognized command"), w)
        else if locked w
        then (inr (OutStr warning_text), mkProbe false true true (obeys w))
        else (inr (OutStr "(config) # "), mkProbe true false false (obeys w))
    | super_enable _ _ _ _ => (inr "# ", w)
    | super_save_config _ _ _ => (inr "saved", w)
    | _ => (inl (External "ReadTimeout" ""), w)
    end.

(** An Arista switch answering [verify /md5]; the world counts the commands
    received. *)
Definition flash_device (digest : string) : Handler nat :=
  fun c w =>
    match c return (Exn + ret_type c) * nat with
    | send_command s _ => (inr (OutStr (s +:+ " = " +:+ digest)), S w)
    | process_md5 _ => (inr digest, w)
    | _ => (inl (External "ReadTimeout" ""), w)
    end.

(** ** The other methods of the two files

    These reach collaborators that the methods above do not: the session
    set-up steps, [send_command] with an [expect_string], the Unix helpers of
    the file transfer, and the inherited [exit_config_mode]. *)

Inductive SessionCall :=
| set_terminal_width (command pattern : option string)
| disable_paging (command : option string) (cmd_verify : option bool)
    (pattern : option string)
| set_base_prompt
| _test_channel_read
| send_command_expect (command_string expect_string : string)
| super_exit_config_mode (exit_config pattern : string)
| _remote_space_available_unix (search_pattern : string)
| _check_file_exists_unix (remote_cmd : string)
| _remote_file_size_unix (remote_cmd : string) (remote_file : option string).

Definition session_ret (c : SessionCall) : Type :=
  match c with
  | set_terminal_width _ _ => string
  | disable_paging _ _ _ => string
  | set_base_prompt => string
  | _test_channel_read => string
  | send_command_expect _ _ => CmdOutput
  | super_exit_config_mode _ _ => string
  | _remote_space_available_unix _ => Z
  | _check_file_exists_unix _ => bool
  | _remote_file_size_unix _ _ => Z
  end.

Inductive SProg (A : Type) : Type :=
| SRet (a : A)
| SRaise (e : Exn)
| SDo (c : SessionCall) (k : session_ret c -> SProg A).

Arguments SRet {A} a.
Arguments SRaise {A} e.
Arguments SDo {A} c k.

Fixpoint sbind {A B : Type} (p : SProg A) (f : A -> SProg B) : SProg B :=
  match p with
  | SRet a => f a
  | SRaise e => SRaise e
  | SDo c k => SDo c (fun r => sbind (k r) f)
  end.

Definition scall (c : SessionCall) : SProg (session_ret c) := SDo c SRet.

#[export] Instance sprog_ret : MRet SProg := @SRet.
#[export] Instance sprog_bind : MBind SProg := fun A B f p => sbind p f.
#[export] Instance sprog_throw : MThrow Exn SProg := @SRaise.

Inductive SEvent :=
| SEv (c : SessionCall) (r : Exn + session_ret c).

Definition sev_call (e : SEvent) : SessionCall :=
  match e with SEv c _ => c end.

(** The call raised. *)
Definition sev_failed (e : SEvent) : bool :=
  match e with
  | SEv _ (inl _) => true
  | SEv _ (inr _) => false
  end.

Definition SHandler (W : Type) : Type :=
  forall c : SessionCall, W -> (Exn + session_ret c) * W.

Record SOutcome (W A : Type) : Type := mkSOutcome {
  sresult : Exn + A;
  sworld : W;
  strace : list SEvent
}.

Arguments mkSOutcome {W A} sresult sworld strace.
Arguments sresult {W A} s.
Arguments sworld {W A} s.
Arguments strace {W A} s.

Fixpoint srun {W A : Type} (h : SHandler W) (p : SProg A) (w : W)
    : SOutcome W A :=
  match p with
  | SRet a => mkSOutcome (inr a) w []
  | SRaise e => mkSOutcome (inl e) w []
  | SDo c k =>
      match h c w with
      | (inl e, w') => mkSOutcome (inl e) w' [SEv c (inl e)]
      | (inr r, w') =>
          let o := srun h (k r) w' in
          mkSOutcome (sresult o) (sworld o) (SEv c (inr r) :: strace o)
      end
  end.

(** [assert isinstance(v, str)] *)
Definition sassert_str (v : CmdOutput) : SProg string :=
  match v with
  | OutStr s => SRet s
  | OutStructured _ => SRaise AssertionError
  end.

(** Methods of [AristaBase] not modelled above. *)
Module AristaBaseSession.

Definition session_preparation : SProg unit :=
  let cmd := "terminal width 511" in
  scall (set_terminal_width (Some cmd) (Some "Width set to"));;
  scall (disable_paging None (Some false) (Some "Pagination disabled"));;
  scall set_base_prompt;;
  mret ().

Definition enable (cmd pattern : option string)
    (enable_pattern : option (option string)) (re_flags : option Z)
    : Prog string :=
  let cmd := default "enable" cmd in
  let pattern := default "ssword" pattern in
  let enable_pattern := default (Some "\#") enable_pattern in
  let re_flags := default IGNORECASE re_flags in
  call (super_enable cmd pattern enable_pattern re_flags).

Definition _enter_shell : SProg string :=
  output ← scall (send_command_expect "bash" "[\$#]");
  output ← sassert_str output;
  mret output.

Definition _return_cli : SProg string :=
  output ← scall (send_command_expect "exit" "[#>]");
  output ← sassert_str output;
  mret output.

End AristaBaseSession.

(** Methods of [AristaFileTransfer] not modelled above. *)
Module AristaFileTransferChecks.

Definition remote_space_available (search_pattern : option string)
    : SProg Z :=
  let search_pattern := default "" search_pattern in
  scall (_remote_space_available_unix search_pattern).

Definition check_file_exists (remote_cmd : option string) : SProg bool :=
  let remote_cmd := default "" remote_cmd in
  scall (_check_file_exists_unix remote_cmd).

Definition remote_file_size (remote_cmd : option string)
    (remote_file : option string) : SProg Z :=
  let remote_cmd := default "" remote_cmd in
  scall (_remote_file_size_unix remote_cmd remote_file).

End AristaFileTransferChecks.

(** Methods of [EndaceSSH] not modelled above. *)
Module EndaceSSHSession.

Definition session_preparation : SProg unit :=
  scall _test_channel_read;;
  scall set_base_prompt;;
  scall (set_terminal_width None None);;
  scall (disable_paging (Some "no cli session paging enable") None None);;
  mret ().

Definition exit_config_mode (exit_config pattern : option string)
    : SProg string :=
  let exit_config := default "exit" exit_config in
  let pattern := default "#" pattern in
  scall (super_exit_config_mode exit_config pattern).

End EndaceSSHSession.

(** ** Measures on traces *)

(** The output gathered from the answers of [send_command_timing], in the
    order of the calls, starting from [acc]. *)
Fixpoint sent_output (acc : string) (t : list Event) : string :=
  match t with
  | [] => acc
  | Ev c r :: t' =>
      match c return (Exn + ret_type c) -> string with
      | send_command_timing _ _ _ =>
          fun r =>
            match r with
            | inr (OutStr s) => sent_output (acc +:+ s) t'
            | _ => sent_output acc t'
            end
      | _ => fun _ => sent_output acc t'
      end r
  end.

(** How many commands went out through [send_command_timing]. *)
Fixpoint count_sends (t : list Event) : nat :=
  match t with
  | [] => 0
  | e :: t' =>
      match ev_call e with
      | send_command_timing _ _ _ => S (count_sends t')
      | _ => count_sends t'
      end
  end.

(** The event is a call of [process_md5]. *)
Definition is_process_md5 (e : Event) : bool :=
  match ev_call e with
  | process_md5 _ => true
  | _ => false
  end.

(** The first call of a program. *)
Definition first_call {A : Type} (p : Prog A) : option Call :=
  match p with
  | Do c _ => Some c
  | _ => None
  end.

(** The pattern that the Arista [config_mode] makes up from [base_prompt]. *)
Definition synthesized_pattern (base_prompt : string) : string :=
  re_escape (take 16 base_prompt) +:+ ".*" +:+ re_escape ")#".

(** No closing parenthesis in [k]. *)
Fixpoint no_rparen (k : string) : bool :=
  match k with
  | EmptyString => true
  | String c k' => negb (Ascii.eqb c ")"%char) && no_rparen k'
  end.

(** ** More simulated collaborators *)

(** A device on which the session steps listed in [failing] raise and all
    others answer; the world counts the calls. *)
Definition step_device (failing : SessionCall -> bool) : SHandler nat :=
  fun c w =>
    if failing c then (inl (External "ReadTimeout" ""), S w)
    else
      match c return (Exn + session_ret c) * nat with
      | set_terminal_width _ _ => (inr "Width set to 511", S w)
      | disable_paging _ _ _ => (inr "Pagination disabled", S w)
      | set_base_prompt => (inr "loc1-core01", S w)
      | _test_channel_read => (inr "", S w)
      | send_command_expect s _ => (inr (OutStr (s +:+ LF)), S w)
      | super_exit_config_mode _ _ => (inr "# ", S w)
      | _remote_space_available_unix _ => (inr 1024%Z, S w)
      | _check_file_exists_unix _ => (inr true, S w)
      | _remote_file_size_unix _ _ => (inr 512%Z, S w)
      end.

(** A device with TextFSM-style parsing switched on: every command comes
    back as structured data. *)
Definition parsing_device : Handler nat :=
  fun c w =>
    match c return (Exn + ret_type c) * nat with
    | super_check_config_mode _ _ => (inr false, S w)
    | send_command_timing _ _ _ => (inr (OutStructured []), S w)
    | send_command _ _ => (inr (OutStructured []), S w)
    | _ => (inl (External "ReadTimeout" ""), S w)
    end.

(** A channel that is closed: every call raises. *)
Definition dead_device : Handler unit :=
  fun c w => (inl (External "ReadTimeout" "channel closed"), w).

(** A probe that shows the warning as text and answers YES with structured
    data. *)
Definition half_parsing_device : Handler nat :=
  fun c w =>
    match c return (Exn + ret_type c) * nat with
    | super_check_config_mode _ _ => (inr false, S w)
    | send_command_timing s _ _ =>
        if String.eqb s "YES" then (inr (OutStructured []), S w)
        else (inr (OutStr warning_text), S w)
    | _ => (inl (External "ReadTimeout" ""), S w)
    end.


(** A session with structured parsing switched on. *)
Definition parsing_session_device : SHandler nat :=
  fun c w =>
    match c return (Exn + session_ret c) * nat with
    | send_command_expect _ _ => (inr (OutStructured []), S w)
    | _ => (inl (External "ReadTimeout" ""), S w)
    end.

(** The steps of the two [session_preparation] methods, in their order. *)
Definition arista_preparation_steps : list SessionCall :=
  [ set_terminal_width (Some "terminal width 511") (Some "Width set to");
    disable_paging None (Some false) (Some "Pagination disabled");
    set_base_prompt ].

Definition endace_preparation_steps : list SessionCall :=
  [ _test_channel_read;
    set_base_prompt;
    set_terminal_width None None;
    disable_paging (Some "no cli session paging enable") None None ].

(** No call of the trace raised. *)
Definition all_answered (t : list SEvent) : bool :=
  forallb (fun e => negb (sev_failed e)) t.

(** A channel that takes what is written and never shows a prompt. *)
Definition mute_device : Handler (list string) :=
  fun c w =>
    match c return (Exn + ret_type c) * list string with
    | write_channel d => (inr tt, w ++ [d])
    | _ => (inl (External "ReadTimeout" "pattern not detected"), w)
    end.

(** ** Removing the occurrences of a marker

    [Stripped mk text cleaned] says in its own words what taking [mk] out
    of [text] is, without reference to [replace]: reading [text] from the
    left, an occurrence of [mk] is left out whole, and a character at which
    no occurrence starts is kept. *)
Inductive Stripped (mk : string) : string -> string -> Prop :=
| stripped_end : Stripped mk "" ""
| stripped_drop p u :
    Stripped mk p u -> Stripped mk (mk +:+ p) u
| stripped_keep c p u :
    startswith mk (String c p) = false ->
    Stripped mk p u -> Stripped mk (String c p) (String c u).

(** * Properties *)

Example replace_leftmost : replace "aa" "b" "aaa" = "ba".
Proof. reflexivity. Qed.

Example replace_empty_old : replace "" "-" "abc" = "-a-b-c-".
Proof. reflexivity. Qed.

Example re_escape_suffix : re_escape ")#" = "\)\#".
Proof. reflexivity. Qed.

Example re_escape_host : re_escape "loc1-core01" = "loc1\-core01".
Proof. reflexivity. Qed.

(** ** Strings *)

Section StringFacts.

Lemma startswith_app (p s : string) : startswith p (p +:+ s) = true.
Proof.
  induction p as [|a p IH]; simpl; [done|].
  by rewrite Ascii.eqb_refl, IH.
Qed.

Lemma startswith_decompose (p s : string) :
  startswith p s = true -> exists t, s = p +:+ t.
Proof.
  revert s; induction p as [|a p IH]; intros s H; simpl in *.
  - by exists s.
  - destruct s as [|b s]; [done|].
    apply andb_prop in H as [Hab Hp].
    apply Ascii.eqb_eq in Hab as ->.
    destruct (IH _ Hp) as [t ->]. by exists t.
Qed.

Lemma str_in_startswith (sub s : string) :
  startswith sub s = true -> str_in sub s = true.
Proof. destruct s; simpl; by intros ->. Qed.

(** [sub in s] holds exactly when [s] is some text, then [sub], then some
    text. *)
Lemma str_in_spec (sub s : string) :
  str_in sub s = true <-> exists a b, s = a +:+ sub +:+ b.
Proof.
  split.
  - induction s as [|c s IH]; simpl; intros H.
    + rewrite orb_false_r in H.
      destruct (startswith_decompose _ _ H) as [t Ht]. by exists "", t.
    + apply orb_prop in H as [H|H].
      * destruct (startswith_decompose _ _ H) as [t Ht]. by exists "", t.
      * destruct (IH H) as (a & b & ->). by exists (String c a), b.
  - intros (a & b & ->). induction a as [|c a IH]; simpl.
    + apply str_in_startswith, startswith_app.
    + rewrite IH. apply orb_true_r.
Qed.

Lemma str_in_cons_false (sub : string) (c : ascii) (s : string) :
  str_in sub (String c s) = false ->
  startswith sub (String c s) = false /\ str_in sub s = false.
Proof. simpl. intros H. by apply orb_false_elim in H. Qed.

Lemma replace_from_skip (old new a s : string) :
  replace_from old new (String.length a) (a +:+ s) = replace_from old new 0 s.
Proof. induction a as [|c a IH]; simpl; [by destruct s|done]. Qed.

Lemma startswith_cons (a : ascii) (p : string) (b : ascii) (s : string) :
  startswith (String a p) (String b s) = Ascii.eqb a b && startswith p s.
Proof. reflexivity. Qed.

(** A character at which no occurrence starts is kept. *)
Lemma replace_keep (a : ascii) (old new : string) (c : ascii) (s : string) :
  startswith (String a old) (String c s) = false ->
  replace (String a old) new (String c s) = String c (replace (String a old) new s).
Proof. unfold replace. cbn [replace_from]. by intros ->. Qed.

(** An occurrence at the head is replaced and the scan goes on behind it. *)
Lemma replace_hit (a : ascii) (old new s : string) :
  replace (String a old) new (String a old +:+ s)
  = new +:+ replace (String a old) new s.
Proof.
  unfold replace.
  pose proof (startswith_app (String a old) s) as Hhd.
  change (String a old +:+ s) with (String a (old +:+ s)) in *.
  cbn [replace_from]. rewrite Hhd.
  f_equal.
  replace (String.length (String a old) - 1) with (String.length old)
    by (cbn [String.length]; lia).
  apply replace_from_skip.
Qed.

(** Without an occurrence nothing changes. *)
Lemma replace_absent (a : ascii) (old new s : string) :
  str_in (String a old) s = false -> replace (String a old) new s = s.
Proof.
  induction s as [|c s IH]; [done|]. intros H.
  apply str_in_cons_false in H as [Hh Ht].
  rewrite replace_keep by done. by rewrite IH.
Qed.

Lemma str_length_app (a b : string) :
  String.length (a +:+ b) = String.length a + String.length b.
Proof. induction a as [|c a IH]; cbn; [done|]. by rewrite IH. Qed.

End StringFacts.

(** ** Decorated prompts and the two replacements *)

Section Prompts.

Variable ok : Marker -> Prop.

(** Text without an opening parenthesis that heads a decorated prompt heads
    the bare prompt as well: a marker would bring its parenthesis. *)
Lemma decorated_head (k u p : string) :
  no_lparen k = true -> Decorated ok u p ->
  startswith k p = true -> startswith k u = true.
Proof.
  intros Hk Hd. revert k Hk.
  induction Hd as [|c u p Hd IH|m u p Hm Hd IH]; intros k Hk H.
  - done.
  - destruct k as [|a k]; [done|]. simpl in *.
    apply andb_prop in H as [-> H]. apply andb_prop in Hk as [_ Hk].
    by rewrite (IH k Hk H).
  - destruct k as [|a k]; [done|]. exfalso.
    destruct m; simpl in H, Hk;
      apply andb_prop in H as [H _]; apply andb_prop in Hk as [Hk _];
      rewrite H in Hk; discriminate.
Qed.

(** A marker at the head is taken out by the replacement of its kind and
    stepped over by the other. *)
Lemma replace_marker_same (mk : Marker) (p : string) :
  replace (marker_text mk) "" (marker_text mk +:+ p)
  = replace (marker_text mk) "" p.
Proof. destruct mk; unfold marker_text; by rewrite replace_hit. Qed.

Lemma replace_marker_other (mk m : Marker) (p : string) :
  m <> mk ->
  replace (marker_text mk) "" (marker_text m +:+ p)
  = marker_text m +:+ replace (marker_text mk) "" p.
Proof.
  intros Hne. destruct mk, m; try done;
    cbn [marker_text String.append];
    rewrite !replace_keep by reflexivity; reflexivity.
Qed.

(** No marker starts at a character of the bare text. *)
Lemma decorated_no_hit (mk : Marker) (c : ascii) (u p : string) :
  Decorated ok u p ->
  startswith (marker_text mk) (String c u) = false ->
  startswith (marker_text mk) (String c p) = false.
Proof.
  intros Hd Hu. destruct (startswith (marker_text mk) (String c p)) eqn:E; [|done].
  rewrite <- Hu. symmetry.
  destruct mk; unfold marker_text in *;
    rewrite startswith_cons in E |- *;
    apply andb_prop in E as [-> E]; cbn [andb];
    (eapply decorated_head; [reflexivity|exact Hd|exact E]).
Qed.

(** One replacement takes out the markers of its kind and leaves a prompt
    decorated with the others. *)
Lemma replace_pass (mk : Marker) (u p : string) :
  Decorated ok u p ->
  str_in (marker_text mk) u = false ->
  Decorated (fun m => ok m /\ m <> mk) u (replace (marker_text mk) "" p).
Proof.
  induction 1 as [|c u p Hd IH|m u p Hm Hd IH]; intros Hfree.
  - destruct mk; constructor.
  - apply str_in_cons_false in Hfree as [Hh Ht].
    pose proof (decorated_no_hit mk c u p Hd Hh) as Hp.
    destruct mk; simpl marker_text in *;
      rewrite replace_keep by done; constructor; auto.
  - specialize (IH Hfree).
    destruct (decide (m = mk)) as [->|Hne].
    + rewrite replace_marker_same. exact IH.
    + rewrite replace_marker_other by done.
      apply dec_mark; [by split|exact IH].
Qed.

Lemma decorated_plain (u p : string) :
  (forall m, ~ ok m) -> Decorated ok u p -> p = u.
Proof.
  intros Hno. induction 1 as [|c u p Hd IH|m u p Hm Hd IH]; [done| |].
  - by rewrite IH.
  - by destruct (Hno m).
Qed.

End Prompts.

(** The two replacements give back the bare prompt, in either order. *)
Lemma strip_decorated (u p : string) :
  Decorated any_marker u p -> marker_free u -> AristaBase.strip_quirks p = u.
Proof.
  intros Hd [H1 H2]. unfold AristaBase.strip_quirks.
  apply (replace_pass _ S1) in Hd; [|exact H1].
  apply (replace_pass _ S2) in Hd; [|exact H2].
  eapply decorated_plain; [|exact Hd].
  intros [] [[_ ?] ?]; congruence.
Qed.

Lemma strip_decorated_swapped (u p : string) :
  Decorated any_marker u p -> marker_free u ->
  replace "(s1)" "" (replace "(s2)" "" p) = u.
Proof.
  intros Hd [H1 H2].
  apply (replace_pass _ S2) in Hd; [|exact H2].
  apply (replace_pass _ S1) in Hd; [|exact H1].
  eapply decorated_plain; [|exact Hd].
  intros [] [[_ ?] ?]; congruence.
Qed.

(** ** Running programs *)

Section Runs.

Context {W : Type} (h : Handler W).

Lemma run_call_ok {A} (c : Call) (k : ret_type c -> Prog A) (w w' : W)
    (r : ret_type c) :
  h c w = (inr r, w') ->
  run h (call c ≫= k) w = after (Ev c (inr r)) (run h (k r) w').
Proof. intros H. cbn. by rewrite H. Qed.

Lemma run_call_err {A} (c : Call) (k : ret_type c -> Prog A) (w w' : W)
    (e : Exn) :
  h c w = (inl e, w') ->
  run h (call c ≫= k) w = mkOutcome (inl e) w' [Ev c (inl e)].
Proof. intros H. cbn. by rewrite H. Qed.

(** A single call leaves a single event. *)
Lemma run_call_trace (c : Call) (w : W) :
  exists r : Exn + ret_type c, trace (run h (call c) w) = [Ev c r].
Proof. cbn. destruct (h c w) as [[x|r] w']; eexists; reflexivity. Qed.

(** A sequence runs its first part, stops there on an exception, and
    otherwise goes on from the world the first part left. *)
Lemma run_bind {A B} (p : Prog A) (f : A -> Prog B) (w : W) :
  run h (p ≫= f) w =
  match result (run h p w) with
  | inl e => mkOutcome (inl e) (world (run h p w)) (trace (run h p w))
  | inr a =>
      let o := run h (f a) (world (run h p w)) in
      mkOutcome (result o) (world o) (trace (run h p w) ++ trace o)
  end.
Proof.
  revert w. induction p as [a|e|c k IH]; intros w.
  - cbn. by destruct (run h (f a) w).
  - done.
  - change (run h (Do c k ≫= f) w) with
      (match h c w with
       | (inl e, w') => mkOutcome (inl e) w' [Ev c (inl e)]
       | (inr r, w') => after (Ev c (inr r)) (run h (k r ≫= f) w')
       end).
    cbn [run]. destruct (h c w) as [[e|r] w']; [done|].
    rewrite IH. cbn. by destruct (result (run h (k r) w')).
Qed.

(** What one call of the Arista [check_config_mode] does on a channel that
    takes the write and answers the read. *)
Lemma arista_check_run (self : Connection) (check_string pattern : option string)
    (w w1 w2 : W) (out : string) :
  h (write_channel (RETURN self)) w = (inr (), w1) ->
  h (read_until_pattern (default "[>\#]" pattern)) w1 = (inr out, w2) ->
  run h (AristaBase.check_config_mode self check_string pattern) w =
  mkOutcome
    (inr (str_in (default ")#" check_string) (AristaBase.strip_quirks out)))
    w2
    [ Ev (write_channel (RETURN self)) (inr ());
      Ev (read_until_pattern (default "[>\#]" pattern)) (inr out) ].
Proof.
  intros Hw Hr. unfold AristaBase.check_config_mode.
  cbn. rewrite Hw. cbn. rewrite Hr. reflexivity.
Qed.

End Runs.

(** ** Arista: the configuration-mode check *)

(** C1, as the code has it.  When markers are put into a prompt [u] that
    contains neither [(s1)] nor [(s2)], the two replacements give back [u]:
    [check_config_mode] answers on the decorated prompt as on [u], for every
    check string, the order of the two replacements does not matter, and a
    second stripping changes nothing. *)
Theorem arista_check_config_mode_ignores_markers
    (u p : string) (self : Connection) (check_string pattern : option string) :
  Decorated any_marker u p ->
  marker_free u ->
  result (run (prompt_device p)
            (AristaBase.check_config_mode self check_string pattern) []) =
  result (run (prompt_device u)
            (AristaBase.check_config_mode self check_string pattern) []) /\
  AristaBase.strip_quirks p = u /\
  replace "(s1)" "" (replace "(s2)" "" p) = AristaBase.strip_quirks p /\
  AristaBase.strip_quirks (AristaBase.strip_quirks p) = AristaBase.strip_quirks p.
Proof.
  intros Hd Hfree.
  pose proof (strip_decorated u p Hd Hfree) as Hp.
  pose proof (strip_decorated_swapped u p Hd Hfree) as Hq.
  assert (AristaBase.strip_quirks u = u) as Hu.
  { destruct Hfree as [H1 H2]. unfold AristaBase.strip_quirks.
    by rewrite (replace_absent _ _ _ _ H1), (replace_absent _ _ _ _ H2). }
  repeat split.
  - rewrite (arista_check_run (prompt_device p) self check_string pattern
               [] [RETURN self] [RETURN self] p eq_refl eq_refl).
    rewrite (arista_check_run (prompt_device u) self check_string pattern
               [] [RETURN self] [RETURN self] u eq_refl eq_refl).
    cbn [result]. by rewrite Hp, Hu.
  - exact Hp.
  - by rewrite Hp, Hq.
  - by rewrite Hp, Hu.
Qed.

Lemma decorated_config_prompt :
  Decorated any_marker "loc1-core01(config)#" "loc1-core01(s1)(config)#".
Proof.
  do 11 apply dec_char.
  apply (dec_mark any_marker S1 "(config)#" "(config)#" I).
  repeat constructor.
Qed.

Lemma arista_check_config_mode_ignores_markers_witness :
  result (run (prompt_device "loc1-core01(s1)(config)#")
            (AristaBase.check_config_mode (mkConnection LF "loc1-core01") None None) []) =
  result (run (prompt_device "loc1-core01(config)#")
            (AristaBase.check_config_mode (mkConnection LF "loc1-core01") None None) []) /\
  AristaBase.strip_quirks "loc1-core01(s1)(config)#" = "loc1-core01(config)#".
Proof.
  destruct (arista_check_config_mode_ignores_markers
              "loc1-core01(config)#" "loc1-core01(s1)(config)#"
              (mkConnection LF "loc1-core01") None None
              decorated_config_prompt (conj eq_refl eq_refl)) as (H1 & H2 & _ & _).
  exact (conj H1 H2).
Defined.

Lemma decorated_nested : Decorated any_marker "(s1)#" "(s(s1)1)#".
Proof.
  do 2 apply dec_char.
  apply (dec_mark any_marker S1 "1)#" "1)#" I).
  repeat constructor.
Qed.

(** The prompt [(s(s1)1)#] is [(s1)#] with a marker put in.
    [check_config_mode] answers true on it and false on [(s1)#], and
    stripping it twice does not give what stripping it once gives. *)
Lemma arista_strip_not_idempotent :
  let self := mkConnection LF "" in
  Decorated any_marker "(s1)#" "(s(s1)1)#" /\
  result (run (prompt_device "(s(s1)1)#")
            (AristaBase.check_config_mode self None None) []) = inr true /\
  result (run (prompt_device "(s1)#")
            (AristaBase.check_config_mode self None None) []) = inr false /\
  AristaBase.strip_quirks "(s(s1)1)#" = "(s1)#" /\
  AristaBase.strip_quirks (AristaBase.strip_quirks "(s(s1)1)#") = "#" /\
  AristaBase.strip_quirks (AristaBase.strip_quirks "(s(s1)1)#")
  <> AristaBase.strip_quirks "(s(s1)1)#".
Proof.
  intros self. split; [exact decorated_nested|].
  repeat split; try reflexivity.
  vm_compute. discriminate.
Qed.

(** ** Endace: entering configuration mode *)

Section Endace.

Context {W : Type} (h : Handler W).

(** Case analysis on the answer of the next call of the program under
    [run], down to the boolean or the kind of output that came back. *)
Ltac answer :=
  match goal with
  | |- context [h ?c ?w] =>
      let e := fresh "e" in
      let r := fresh "r" in
      let w' := fresh "w" in
      let E := fresh "E" in
      destruct (h c w) as [[e|r] w'] eqn:E;
      [ | lazymatch c with
          | super_check_config_mode _ _ => destruct r
          | send_command_timing _ _ _ => destruct r as [?d|?v]
          | _ => idtac
          end ];
      cbn
  end.

Ltac paths :=
  unfold EndaceSSH.config_mode, EndaceSSH.check_config_mode; cbn;
  repeat first
    [ answer
    | match goal with
      | |- context [str_in ?a ?b] => destruct (str_in a b) eqn:?; cbn
      end ].

Lemma count_sent_other (s s' : string) (a b : bool) (r : Exn + CmdOutput)
    (t : list Event) :
  s' <> s ->
  count_sent s (Ev (send_command_timing s' a b) r :: t) = count_sent s t.
Proof. intros H. cbn. by apply String.eqb_neq in H as ->. Qed.

(** The confirmation goes out at most once, whatever the device answers. *)
Lemma endace_confirms_at_most_once (config_command pattern : option string)
    (re_flags : option Z) (w : W) :
  default "conf t" config_command <> "YES" ->
  count_sent "YES"
    (trace (run h (EndaceSSH.config_mode config_command pattern re_flags) w)) <= 1.
Proof.
  intros Hne. apply String.eqb_neq in Hne.
  paths; rewrite ?Hne; lia.
Qed.

(** The inherited [save_config] is never called by [config_mode]. *)
Lemma endace_config_mode_no_save (config_command pattern : option string)
    (re_flags : option Z) (w : W) (e : Event) :
  e ∈ trace (run h (EndaceSSH.config_mode config_command pattern re_flags) w) ->
  is_save e = false.
Proof.
  paths;
  intros H; repeat (apply elem_of_cons in H as [->|H]; [reflexivity|]);
  by apply elem_of_nil in H.
Qed.

(** When [config_mode] returns, the last thing it did was a check that said
    yes. *)
Lemma endace_config_mode_returns_checked (config_command pattern : option string)
    (re_flags : option Z) (w : W) (out : string) :
  result (run h (EndaceSSH.config_mode config_command pattern re_flags) w)
  = inr out ->
  last (trace (run h (EndaceSSH.config_mode config_command pattern re_flags) w))
  = Some (Ev (super_check_config_mode "(config) #" "") (inr true)).
Proof.
  paths;
  intros H; try discriminate H; reflexivity.
Qed.

(** C5.  When the check says the session is in configuration mode,
    [config_mode] does nothing more: the check is its only call, so neither
    the configuration command nor the confirmation goes out, it returns the
    empty string, and the device is left as the check left it.  Called again
    on a session still in configuration mode it does the same. *)
Theorem endace_config_mode_idempotent (config_command pattern : option string)
    (re_flags : option Z) (w w1 : W) :
  h (super_check_config_mode "(config) #" "") w = (inr true, w1) ->
  let config := EndaceSSH.config_mode config_command pattern re_flags in
  result (run h config w) = inr "" /\
  world (run h config w) = w1 /\
  trace (run h config w) =
    [ Ev (super_check_config_mode "(config) #" "") (inr true) ] /\
  (forall s, count_sent s (trace (run h config w)) = 0) /\
  (forall w2,
      h (super_check_config_mode "(config) #" "") w1 = (inr true, w2) ->
      run h (config;; config) w =
      mkOutcome (inr "") w2
        [ Ev (super_check_config_mode "(config) #" "") (inr true);
          Ev (super_check_config_mode "(config) #" "") (inr true) ]).
Proof.
  intros Hc config.
  assert (forall v v', h (super_check_config_mode "(config) #" "") v = (inr true, v') ->
            run h config v =
            mkOutcome (inr "") v'
              [Ev (super_check_config_mode "(config) #" "") (inr true)]) as Hrun.
  { intros v v' Hv. subst config.
    unfold EndaceSSH.config_mode, EndaceSSH.check_config_mode. cbn.
    rewrite Hv. reflexivity. }
  rewrite (Hrun _ _ Hc). repeat split.
  intros w2 Hc2. rewrite run_bind, (Hrun _ _ Hc). cbn [result world trace].
  rewrite (Hrun _ _ Hc2). reflexivity.
Qed.

(** C2, as the code has it.  On a session that is not in configuration mode
    and answers the configuration command (other than YES itself) with the
    warning, [config_mode] sends YES once, checks again, and returns the two
    outputs joined when the check says yes; when it says no the call ends in
    [ValueError("Failed to enter configuration mode")].  Whatever the device
    answers, YES goes out at most once per call. *)
Theorem endace_config_mode_confirms_once
    (config_command pattern : option string) (re_flags : option Z)
    (w w1 w2 w3 w4 : W) (d1 d2 : string) (b : bool) :
  default "conf t" config_command <> "YES" ->
  h (super_check_config_mode "(config) #" "") w = (inr false, w1) ->
  h (send_command_timing (default "conf t" config_command) false false) w1
  = (inr (OutStr d1), w2) ->
  str_in "to enter configuration mode anyway" d1 = true ->
  h (send_command_timing "YES" false false) w2 = (inr (OutStr d2), w3) ->
  h (super_check_config_mode "(config) #" "") w3 = (inr b, w4) ->
  let config := EndaceSSH.config_mode config_command pattern re_flags in
  trace (run h config w) =
    [ Ev (super_check_config_mode "(config) #" "") (inr false);
      Ev (send_command_timing (default "conf t" config_command) false false)
        (inr (OutStr d1));
      Ev (send_command_timing "YES" false false) (inr (OutStr d2));
      Ev (super_check_config_mode "(config) #" "") (inr b) ] /\
  count_sent "YES" (trace (run h config w)) = 1 /\
  world (run h config w) = w4 /\
  result (run h config w) =
    (if b then inr (d1 +:+ d2)
     else inl (ValueError "Failed to enter configuration mode")) /\
  (forall v, count_sent "YES" (trace (run h config v)) <= 1).
Proof.
  intros Hne Hc1 Hs1 Hwarn Hs2 Hc2 config.
  assert (run h config w =
          mkOutcome
            (if b then inr (d1 +:+ d2)
             else inl (ValueError "Failed to enter configuration mode"))
            w4
            [ Ev (super_check_config_mode "(config) #" "") (inr false);
              Ev (send_command_timing (default "conf t" config_command) false false)
                (inr (OutStr d1));
              Ev (send_command_timing "YES" false false) (inr (OutStr d2));
              Ev (super_check_config_mode "(config) #" "") (inr b) ]) as E.
  { subst config.
    unfold EndaceSSH.config_mode, EndaceSSH.check_config_mode. cbn.
    rewrite Hc1. cbn. rewrite Hs1. cbn. rewrite Hwarn. cbn.
    rewrite Hs2. cbn. rewrite Hc2. by destruct b. }
  rewrite E. cbn [trace world result]. repeat split.
  - apply String.eqb_neq in Hne. cbn. by rewrite Hne.
  - intros v. by apply endace_confirms_at_most_once.
Qed.

End Endace.

Lemma endace_config_mode_idempotent_witness :
  let w := mkProbe true false false true in
  result (run probe_device (EndaceSSH.config_mode None None None) w) = inr "" /\
  world (run probe_device (EndaceSSH.config_mode None None None) w) = w /\
  count_sent "conf t"
    (trace (run probe_device (EndaceSSH.config_mode None None None) w)) = 0.
Proof.
  intros w.
  destruct (endace_config_mode_idempotent probe_device None None None w w
              eq_refl) as (Hres & Hworld & _ & Hsent & _).
  exact (conj Hres (conj Hworld (Hsent "conf t"))).
Defined.

Lemma endace_config_mode_confirms_once_witness :
  let w := mkProbe false true false true in
  result (run probe_device (EndaceSSH.config_mode None None None) w)
  = inr (warning_text +:+ "YES") /\
  count_sent "YES"
    (trace (run probe_device (EndaceSSH.config_mode None None None) w)) = 1.
Proof.
  intros w.
  destruct (endace_config_mode_confirms_once probe_device None None None
              w w (mkProbe false true true true) (mkProbe true true false true)
              (mkProbe true true false true) warning_text "YES" true
              ltac:(discriminate) eq_refl eq_refl eq_refl eq_refl eq_refl)
    as (_ & Hsent & _ & Hres & _).
  exact (conj Hres Hsent).
Defined.

(** A probe that shows the warning and does not honour YES.  The call ends
    in a [ValueError] with the fixed message: its class is not
    [ConfigModeError], and neither the warning nor any of the output
    gathered so far is in it. *)
Lemma endace_config_mode_error_drops_output :
  trace (run probe_device (EndaceSSH.config_mode None None None)
           (mkProbe false true false false)) =
    [ Ev (super_check_config_mode "(config) #" "") (inr false);
      Ev (send_command_timing "conf t" false false) (inr (OutStr warning_text));
      Ev (send_command_timing "YES" false false) (inr (OutStr "YES"));
      Ev (super_check_config_mode "(config) #" "") (inr false) ] /\
  result (run probe_device (EndaceSSH.config_mode None None None)
            (mkProbe false true false false))
  = inl (ValueError "Failed to enter configuration mode") /\
  exn_class (ValueError "Failed to enter configuration mode")
  <> "ConfigModeError" /\
  str_in (warning_text +:+ "YES")
    (exn_message (ValueError "Failed to enter configuration mode")) = false /\
  str_in warning_text
    (exn_message (ValueError "Failed to enter configuration mode")) = false.
Proof.
  split; [reflexivity|]. split; [reflexivity|].
  split; [discriminate|]. split; reflexivity.
Qed.

(** ** Arista: entering configuration mode *)

Lemma take_prefix (n : nat) (s : string) :
  exists rest, s = take n s +:+ rest.
Proof.
  revert s. induction n as [|n IH]; intros s; [by exists s; destruct s|].
  destruct s as [|c s]; [by exists ""|].
  destruct (IH s) as [rest Hrest]. exists rest. cbn. by rewrite <- Hrest.
Qed.

Lemma take_length (n : nat) (s : string) :
  String.length (take n s) = Nat.min n (String.length s).
Proof.
  revert s. induction n as [|n IH]; intros [|c s]; cbn; try done.
  by rewrite IH.
Qed.

(** C3.  [config_mode] makes one call, the inherited [config_mode].  With an
    empty pattern argument, given or left out, the pattern it passes is the
    escaped first sixteen characters of [base_prompt], then [.*], then the
    escaped [)#], which is [\)\#]; with flags 0, given or left out, the flags
    it passes are [re.DOTALL]. *)
Theorem arista_config_mode_synthesizes_pattern
    (self : Connection) (config_command pattern : option string)
    (re_flags : option Z) :
  exists (pat : string) (flags : Z),
    AristaBase.config_mode self config_command pattern re_flags =
    call (super_config_mode (default "configure terminal" config_command)
            pat flags) /\
    (default "" pattern = "" ->
       pat = re_escape (take 16 (base_prompt self)) +:+ ".*" +:+ re_escape ")#" /\
       re_escape ")#" = "\)\#" /\
       (exists rest, base_prompt self = take 16 (base_prompt self) +:+ rest) /\
       String.length (take 16 (base_prompt self))
       = Nat.min 16 (String.length (base_prompt self))) /\
    (default "" pattern <> "" -> pat = default "" pattern) /\
    (default 0%Z re_flags = 0%Z -> flags = DOTALL /\ DOTALL = 16%Z) /\
    (default 0%Z re_flags <> 0%Z -> flags = default 0%Z re_flags).
Proof.
  unfold AristaBase.config_mode.
  eexists _, _. split; [reflexivity|]. split; [|split; [|split]].
  - intros E. rewrite E. split; [reflexivity|]. split; [reflexivity|].
    split; [apply take_prefix|apply take_length].
  - intros E%String.eqb_neq. by rewrite E.
  - intros E. rewrite E. split; reflexivity.
  - intros E%Z.eqb_neq. by rewrite E.
Qed.

Lemma arista_config_mode_synthesizes_pattern_witness :
  AristaBase.config_mode (mkConnection LF "loc1-core01-rack12-row7") None None None
  = call (super_config_mode "configure terminal" "loc1\-core01\-rack.*\)\#" 16%Z) /\
  AristaBase.config_mode (mkConnection LF "loc1-core01") None (Some "\(config") (Some 8%Z)
  = call (super_config_mode "configure terminal" "\(config" 8%Z).
Proof.
  split.
  - destruct (arista_config_mode_synthesizes_pattern
                (mkConnection LF "loc1-core01-rack12-row7") None None None)
      as (pat & flags & E & Hpat & _ & Hflags & _).
    destruct (Hpat eq_refl) as [-> _]. destruct (Hflags eq_refl) as [-> _].
    exact E.
  - destruct (arista_config_mode_synthesizes_pattern
                (mkConnection LF "loc1-core01") None (Some "\(config") (Some 8%Z))
      as (pat & flags & E & _ & Hpat & _ & Hflags).
    rewrite (Hpat ltac:(discriminate)), (Hflags ltac:(discriminate)) in E.
    exact E.
Defined.

(** ** Arista: file transfer *)

(** C6.  [enable_scp] and [disable_scp] raise [NotImplementedError] for
    every argument: no call is made and the world is as it was. *)
Theorem arista_scp_toggle_not_implemented
    {W : Type} (h : Handler W) (cmd : option ScpCmd) (w : W) :
  run h (AristaFileTransfer.enable_scp cmd) w
  = mkOutcome (inl NotImplementedError) w [] /\
  run h (AristaFileTransfer.disable_scp cmd) w
  = mkOutcome (inl NotImplementedError) w [].
Proof. split; reflexivity. Qed.

(** C7.  [remote_md5] sends [base_cmd file:file_system/name] with a read
    timeout of 600, where [name] is the remote file given, or [dest_file]
    for direction [put], or [source_file] for direction [get]; when the
    command answers with text, the digest that [process_md5] takes from it
    is returned. *)
Theorem arista_remote_md5_command
    {W : Type} (h : Handler W) (self : Transfer)
    (base_cmd remote_file : option string) (name out digest : string)
    (w w1 w2 : W) :
  remote_file = Some name \/
  (remote_file = None /\ direction self = "put" /\ name = dest_file self) \/
  (remote_file = None /\ direction self = "get" /\ name = source_file self) ->
  let remote_md5_cmd :=
    default "verify /md5" base_cmd +:+ " file:" +:+ file_system self +:+ "/"
    +:+ name in
  h (send_command remote_md5_cmd 600) w = (inr (OutStr out), w1) ->
  h (process_md5 out) w1 = (inr digest, w2) ->
  run h (AristaFileTransfer.remote_md5 self base_cmd remote_file) w =
  mkOutcome (inr digest) w2
    [ Ev (send_command remote_md5_cmd 600) (inr (OutStr out));
      Ev (process_md5 out) (inr digest) ].
Proof.
  intros Hname cmd Hsend Hmd5.
  assert (AristaFileTransfer.remote_md5 self base_cmd remote_file =
          (dest_md5 ← call (send_command cmd 600);
           dest_md5 ← assert_str dest_md5;
           dest_md5 ← call (process_md5 dest_md5);
           mret dest_md5)) as ->.
  { unfold AristaFileTransfer.remote_md5. subst cmd.
    destruct Hname as [->|[(-> & Hd & ->)|(-> & Hd & ->)]];
      [done|by rewrite Hd|by rewrite Hd]. }
  cbn. rewrite Hsend. cbn. rewrite Hmd5. reflexivity.
Qed.

Lemma arista_remote_md5_command_witness :
  let self := mkTransfer "eos.swi" "eos-new.swi" "/mnt/flash" "put" in
  trace (run (flash_device "d41d8cd98f00b204e9800998ecf8427e")
           (AristaFileTransfer.remote_md5 self None None) 0) =
    [ Ev (send_command "verify /md5 file:/mnt/flash/eos-new.swi" 600)
        (inr (OutStr ("verify /md5 file:/mnt/flash/eos-new.swi = "
                      +:+ "d41d8cd98f00b204e9800998ecf8427e")));
      Ev (process_md5 ("verify /md5 file:/mnt/flash/eos-new.swi = "
                       +:+ "d41d8cd98f00b204e9800998ecf8427e"))
        (inr "d41d8cd98f00b204e9800998ecf8427e") ] /\
  result (run (flash_device "d41d8cd98f00b204e9800998ecf8427e")
            (AristaFileTransfer.remote_md5 self None None) 0)
  = inr "d41d8cd98f00b204e9800998ecf8427e".
Proof.
  intros self.
  rewrite (arista_remote_md5_command
             (flash_device "d41d8cd98f00b204e9800998ecf8427e") self None None
             "eos-new.swi"
             ("verify /md5 file:/mnt/flash/eos-new.swi = "
              +:+ "d41d8cd98f00b204e9800998ecf8427e")
             "d41d8cd98f00b204e9800998ecf8427e" 0 1 1
             (or_intror (or_introl (conj eq_refl (conj eq_refl eq_refl))))
             eq_refl eq_refl).
  split; reflexivity.
Defined.

(** C8.  The constructor hands its arguments to the inherited constructor.
    Left out, [file_system] is [/mnt/flash] and [direction] is [put]; given,
    each goes through as it is. *)
Theorem arista_file_transfer_defaults
    (ssh_conn : PyVal) (source dest : string) (kwargs : gmap string PyVal) :
  AristaFileTransfer.__init__ ssh_conn source dest None None kwargs =
    call (super_init_transfer ssh_conn source dest (Some "/mnt/flash") "put"
            kwargs) /\
  (forall (fs : option string) (d : string),
      AristaFileTransfer.__init__ ssh_conn source dest (Some fs) (Some d) kwargs =
      call (super_init_transfer ssh_conn source dest fs d kwargs)) /\
  (forall fs : option string,
      AristaFileTransfer.__init__ ssh_conn source dest (Some fs) None kwargs =
      call (super_init_transfer ssh_conn source dest fs "put" kwargs)) /\
  (forall d : string,
      AristaFileTransfer.__init__ ssh_conn source dest None (Some d) kwargs =
      call (super_init_transfer ssh_conn source dest (Some "/mnt/flash") d
              kwargs)).
Proof. repeat split. Qed.

(** ** Arista: the Telnet line terminator *)

(** C9.  [AristaTelnet] hands the inherited constructor its positional
    arguments and its keywords with [default_enter] set: to ["\r\n"] when the
    keyword is missing or [None], and otherwise to the value given, so that
    the keywords are then the caller's own.  No other keyword changes.
    [AristaSSH] hands the caller's keywords through as they are. *)
Theorem arista_telnet_default_enter
    (args : list PyVal) (kwargs : gmap string PyVal) :
  exists kwargs' : gmap string PyVal,
    AristaTelnet.__init__ args kwargs =
    call (super_init_connection args kwargs') /\
    (kwargs !! "default_enter" = None \/
     kwargs !! "default_enter" = Some PyNone ->
       kwargs' !! "default_enter" = Some (PyStr CRLF) /\
       CRLF = String (ascii_of_nat 13) (String (ascii_of_nat 10) "")) /\
    (forall v, kwargs !! "default_enter" = Some v -> v <> PyNone ->
       kwargs' !! "default_enter" = Some v /\ kwargs' = kwargs) /\
    (forall k, k <> "default_enter" -> kwargs' !! k = kwargs !! k) /\
    AristaSSH.__init__ args kwargs = call (super_init_connection args kwargs).
Proof.
  unfold AristaTelnet.__init__, dict_get.
  eexists. split; [reflexivity|]. split; [|split; [|split]].
  - rewrite lookup_insert_eq. by intros [->| ->].
  - intros v Hv Hnone. rewrite lookup_insert_eq, Hv.
    destruct v; try done; split; try done; by apply insert_id.
  - intros k Hk. by rewrite lookup_insert_ne.
  - reflexivity.
Qed.

Lemma arista_telnet_default_enter_witness :
  (exists kwargs' : gmap string PyVal,
      AristaTelnet.__init__ [] {[ "host" := PyStr "sw1" ]} =
      call (super_init_connection [] kwargs') /\
      kwargs' !! "default_enter" = Some (PyStr CRLF) /\
      kwargs' !! "host" = Some (PyStr "sw1")) /\
  AristaTelnet.__init__ [] {[ "default_enter" := PyStr LF ]} =
  call (super_init_connection [] {[ "default_enter" := PyStr LF ]}).
Proof.
  split.
  - destruct (arista_telnet_default_enter [] {[ "host" := PyStr "sw1" ]})
      as (kw & E & Hnone & _ & Hother & _).
    exists kw. split; [exact E|]. split.
    + exact (proj1 (Hnone (or_introl eq_refl))).
    + rewrite (Hother "host" ltac:(discriminate)). reflexivity.
  - destruct (arista_telnet_default_enter [] {[ "default_enter" := PyStr LF ]})
      as (kw & E & _ & Hsome & _).
    destruct (Hsome (PyStr LF) eq_refl ltac:(discriminate)) as [_ Hkw].
    rewrite Hkw in E. exact E.
Defined.

(** * Further properties of the two files *)

(** ** More on strings *)

Lemma str_app_inv_tail (a b s : string) : a +:+ s = b +:+ s -> a = b.
Proof.
  intros H.
  assert (String.length a = String.length b) as Hlen.
  { apply (f_equal String.length) in H. rewrite !str_length_app in H. lia. }
  revert b H Hlen. induction a as [|c a IH]; intros [|d b] H Hlen;
    try done.
  cbn in H, Hlen. injection H as -> H. f_equal. apply IH; [done|lia].
Qed.

Lemma str_in_empty (s : string) : str_in "" s = true.
Proof. by destruct s. Qed.

(** A pattern whose first character does not occur in [host] cannot start
    inside [host]. *)
Lemma str_in_past_lparen (k host t : string) :
  no_lparen host = true ->
  str_in (String "(" k) (host +:+ t) = str_in (String "(" k) t.
Proof.
  intros H. induction host as [|c host IH]; [done|].
  cbn in H. apply andb_prop in H as [Hc H].
  change (String c host +:+ t) with (String c (host +:+ t)).
  cbn [str_in]. rewrite startswith_cons, IH by done.
  rewrite Ascii.eqb_sym. apply negb_true_iff in Hc. by rewrite Hc.
Qed.

Lemma str_in_past_rparen (k host t : string) :
  no_rparen host = true ->
  str_in (String ")" k) (host +:+ t) = str_in (String ")" k) t.
Proof.
  intros H. induction host as [|c host IH]; [done|].
  cbn in H. apply andb_prop in H as [Hc H].
  change (String c host +:+ t) with (String c (host +:+ t)).
  cbn [str_in]. rewrite startswith_cons, IH by done.
  rewrite Ascii.eqb_sym. apply negb_true_iff in Hc. by rewrite Hc.
Qed.

Lemma replace_from_sublist (old : string) (skip : nat) (s : string) :
  sublist (String.list_ascii_of_string (replace_from old "" skip s))
          (String.list_ascii_of_string s).
Proof.
  revert skip. induction s as [|c s IH]; intros skip; [constructor|].
  cbn [replace_from]. destruct skip as [|k].
  - destruct (startswith old (String c s)).
    + cbn. apply sublist_cons, IH.
    + cbn. apply sublist_skip, IH.
  - cbn. apply sublist_cons, IH.
Qed.

Lemma decorated_refl (ok : Marker -> Prop) (t : string) : Decorated ok t t.
Proof. induction t; constructor; done. Qed.

(** A marker put behind [host]. *)
Lemma decorated_behind (host : string) (m : Marker) (t : string) :
  Decorated any_marker (host +:+ t) (host +:+ marker_text m +:+ t).
Proof.
  induction host as [|c host IH].
  - apply (dec_mark any_marker m t t I), decorated_refl.
  - apply (dec_char any_marker c), IH.
Qed.

(** ** Arista: more on the configuration-mode check *)

(** X1.  When the text read contains neither marker, the two replacements
    leave it alone: [check_config_mode] returns whether the check string
    occurs in the text as it was read. *)
Theorem arista_check_plain_text
    {W : Type} (h : Handler W) (self : Connection)
    (check_string pattern : option string) (w w1 w2 : W) (out : string) :
  marker_free out ->
  h (write_channel (RETURN self)) w = (inr (), w1) ->
  h (read_until_pattern (default "[>\#]" pattern)) w1 = (inr out, w2) ->
  AristaBase.strip_quirks out = out /\
  result (run h (AristaBase.check_config_mode self check_string pattern) w)
  = inr (str_in (default ")#" check_string) out).
Proof.
  intros [H1 H2] Hw Hr.
  assert (AristaBase.strip_quirks out = out) as Hid.
  { unfold AristaBase.strip_quirks.
    by rewrite (replace_absent _ _ _ _ H1), (replace_absent _ _ _ _ H2). }
  split; [exact Hid|].
  rewrite (arista_check_run h self check_string pattern w w1 w2 out Hw Hr).
  cbn [result]. by rewrite Hid.
Qed.

Lemma arista_check_plain_text_witness :
  result (run (prompt_device "loc1-core01(config-if-Et1)#")
            (AristaBase.check_config_mode (mkConnection LF "loc1-core01")
               None None) [])
  = inr true.
Proof.
  exact (proj2 (arista_check_plain_text
                  (prompt_device "loc1-core01(config-if-Et1)#")
                  (mkConnection LF "loc1-core01") None None
                  [] [LF] [LF] "loc1-core01(config-if-Et1)#"
                  (conj eq_refl eq_refl) eq_refl eq_refl)).
Defined.

(** X2.  The two replacements only take characters out: the cleaned text is
    the text read with some characters dropped, the others in their order,
    and it is never longer. *)
Theorem arista_strip_only_deletes (output : string) :
  sublist (String.list_ascii_of_string (AristaBase.strip_quirks output))
          (String.list_ascii_of_string output) /\
  String.length (AristaBase.strip_quirks output) <= String.length output.
Proof.
  assert (sublist (String.list_ascii_of_string (AristaBase.strip_quirks output))
            (String.list_ascii_of_string output)) as Hsub.
  { unfold AristaBase.strip_quirks, replace.
    etrans; apply replace_from_sublist. }
  split; [exact Hsub|].
  apply sublist_length in Hsub.
  assert (forall s, length (String.list_ascii_of_string s) = String.length s)
    as Hlen by (intros s; induction s; cbn; congruence).
  by rewrite !Hlen in Hsub.
Qed.

(** X3.  The prompt of the docstring.  For a host name without parentheses
    and either marker, the prompt [host(sN)#] contains [)#] as it is read,
    and [check_config_mode] with its default arguments still answers false;
    on [host(sN)(config)#] it answers true. *)
Theorem arista_check_supervisor_prompt
    (host : string) (m : Marker) (self : Connection) :
  no_lparen host = true ->
  no_rparen host = true ->
  str_in ")#" (host +:+ marker_text m +:+ "#") = true /\
  result (run (prompt_device (host +:+ marker_text m +:+ "#"))
            (AristaBase.check_config_mode self None None) [])
  = inr false /\
  result (run (prompt_device (host +:+ marker_text m +:+ "(config)#"))
            (AristaBase.check_config_mode self None None) [])
  = inr true.
Proof.
  intros Hl Hr.
  assert (forall t, marker_free t -> marker_free (host +:+ t)) as Hfree.
  { intros t [H1 H2]. split; by rewrite str_in_past_lparen. }
  split; [|split].
  - rewrite str_in_past_rparen by done. by destruct m.
  - rewrite (arista_check_run (prompt_device _) self None None
               [] [RETURN self] [RETURN self] _ eq_refl eq_refl).
    cbn [result default].
    rewrite (strip_decorated (host +:+ "#") _ (decorated_behind host m "#"))
      by (by apply Hfree). 
    by rewrite str_in_past_rparen.
  - rewrite (arista_check_run (prompt_device _) self None None
               [] [RETURN self] [RETURN self] _ eq_refl eq_refl).
    cbn [result default].
    rewrite (strip_decorated (host +:+ "(config)#") _
               (decorated_behind host m "(config)#"))
      by (by apply Hfree).
    by rewrite str_in_past_rparen.
Qed.

Lemma arista_check_supervisor_prompt_witness :
  result (run (prompt_device "loc1-core01(s2)#")
            (AristaBase.check_config_mode (mkConnection LF "loc1-core01")
               None None) [])
  = inr false /\
  result (run (prompt_device "loc1-core01(s2)(config)#")
            (AristaBase.check_config_mode (mkConnection LF "loc1-core01")
               None None) [])
  = inr true.
Proof.
  exact (proj2 (arista_check_supervisor_prompt "loc1-core01" S2
                  (mkConnection LF "loc1-core01") eq_refl eq_refl)).
Defined.

(** X4.  [check_config_mode] raises nothing of its own.  It makes at most
    two calls; an exception it ends in is the one its last call raised; when
    the write raises nothing is read; when the read raises, that exception
    comes out after the one write. *)
Theorem arista_check_failures
    {W : Type} (h : Handler W) (self : Connection)
    (check_string pattern : option string) (w : W) :
  let check := AristaBase.check_config_mode self check_string pattern in
  length (trace (run h check w)) <= 2 /\
  (forall e, result (run h check w) = inl e ->
     exists c, last (trace (run h check w)) = Some (Ev c (inl e))) /\
  (forall e w1,
     h (write_channel (RETURN self)) w = (inl e, w1) ->
     run h check w
     = mkOutcome (inl e) w1 [Ev (write_channel (RETURN self)) (inl e)]) /\
  (forall e w1 w2,
     h (write_channel (RETURN self)) w = (inr (), w1) ->
     h (read_until_pattern (default "[>\#]" pattern)) w1 = (inl e, w2) ->
     run h check w
     = mkOutcome (inl e) w2
         [ Ev (write_channel (RETURN self)) (inr ());
           Ev (read_until_pattern (default "[>\#]" pattern)) (inl e) ]).
Proof.
  intros check. subst check. unfold AristaBase.check_config_mode. cbn.
  destruct (h (write_channel (RETURN self)) w) as [[e|[]] w1] eqn:Hw; cbn.
  - split; [lia|]. split; [|split].
    + intros e' [= <-]. by exists (write_channel (RETURN self)).
    + by intros e' w1' [= <- <-].
    + intros e' w1' w2 [=].
  - destruct (h (read_until_pattern (default "[>\#]" pattern)) w1)
      as [[e|out] w2] eqn:Hr; cbn.
    + split; [lia|]. split; [|split].
      * intros e' [= <-].
        by exists (read_until_pattern (default "[>\#]" pattern)).
      * intros e' w1' [=].
      * intros e' w1' w2' [= <-]. rewrite Hr. by intros [= <- <-].
    + split; [lia|]. split; [|split].
      * intros e' [=].
      * intros e' w1' [=].
      * intros e' w1' w2' [= <-]. rewrite Hr. intros [=].
Qed.

Lemma arista_check_failures_witness :
  run dead_device
    (AristaBase.check_config_mode (mkConnection LF "loc1-core01") None None) ()
  = mkOutcome (inl (External "ReadTimeout" "channel closed")) ()
      [ Ev (write_channel LF) (inl (External "ReadTimeout" "channel closed")) ] /\
  run mute_device
    (AristaBase.check_config_mode (mkConnection LF "loc1-core01") None None) []
  = mkOutcome (inl (External "ReadTimeout" "pattern not detected")) [LF]
      [ Ev (write_channel LF) (inr ());
        Ev (read_until_pattern "[>\#]")
          (inl (External "ReadTimeout" "pattern not detected")) ].
Proof.
  split.
  - destruct (arista_check_failures dead_device (mkConnection LF "loc1-core01")
                None None ()) as (_ & _ & Hwrite & _).
    exact (Hwrite _ _ eq_refl).
  - destruct (arista_check_failures mute_device (mkConnection LF "loc1-core01")
                None None []) as (_ & Hlast & _ & Hread).
    destruct (Hlast _ (f_equal result (Hread _ _ _ eq_refl eq_refl)))
      as [_ _].
    exact (Hread _ _ _ eq_refl eq_refl).
Defined.

(** X5.  With an empty check string [check_config_mode] answers true
    whatever the device printed. *)
Theorem arista_check_empty_check_string
    {W : Type} (h : Handler W) (self : Connection) (pattern : option string)
    (w w1 w2 : W) (out : string) :
  h (write_channel (RETURN self)) w = (inr (), w1) ->
  h (read_until_pattern (default "[>\#]" pattern)) w1 = (inr out, w2) ->
  result (run h (AristaBase.check_config_mode self (Some "") pattern) w)
  = inr true.
Proof.
  intros Hw Hr.
  rewrite (arista_check_run h self (Some "") pattern w w1 w2 out Hw Hr).
  cbn [result default]. by rewrite str_in_empty.
Qed.

Lemma arista_check_empty_check_string_witness :
  result (run (prompt_device "loc1-core01>")
            (AristaBase.check_config_mode (mkConnection LF "loc1-core01")
               (Some "") None) [])
  = inr true.
Proof.
  exact (arista_check_empty_check_string (prompt_device "loc1-core01>")
           (mkConnection LF "loc1-core01") None [] [LF] [LF] "loc1-core01>"
           eq_refl eq_refl).
Defined.

(** ** Arista: more on the synthesized pattern *)

Lemma re_escape_cons (c : ascii) (s : string) :
  re_escape (String c s) =
  if is_special c then String "\" (String c (re_escape s))
  else String c (re_escape s).
Proof. reflexivity. Qed.

(** Escaping loses nothing: different texts have different escapes. *)
Lemma re_escape_inj (s1 s2 : string) : re_escape s1 = re_escape s2 -> s1 = s2.
Proof.
  revert s2. induction s1 as [|c s1 IH]; intros [|d s2];
    rewrite ?re_escape_cons; cbn [re_escape].
  - done.
  - by destruct (is_special d).
  - by destruct (is_special c).
  - destruct (is_special c) eqn:Hc, (is_special d) eqn:Hd; intros H.
    + injection H as -> H. by rewrite (IH _ H).
    + injection H as <- _. vm_compute in Hd. discriminate.
    + injection H as -> _. vm_compute in Hc. discriminate.
    + injection H as -> H. by rewrite (IH _ H).
Qed.

Lemma re_escape_length (s : string) :
  String.length s <= String.length (re_escape s) <= 2 * String.length s.
Proof.
  induction s as [|c s IH]; [cbn; lia|].
  rewrite re_escape_cons. destruct (is_special c); cbn [String.length]; lia.
Qed.

(** X6.  With the pattern left out, [config_mode] looks at the first sixteen
    characters of [base_prompt] and at nothing else of it: two sessions make
    the same call exactly when their prompts agree on these characters. *)
Theorem arista_config_mode_prefix_only
    (self1 self2 : Connection) (config_command : option string)
    (re_flags : option Z) :
  AristaBase.config_mode self1 config_command None re_flags
  = AristaBase.config_mode self2 config_command None re_flags
  <-> take 16 (base_prompt self1) = take 16 (base_prompt self2).
Proof.
  unfold AristaBase.config_mode. cbn [default String.eqb]. split.
  - intros H. apply (f_equal first_call) in H. cbn in H.
    injection H as H.
    by apply str_app_inv_tail, re_escape_inj in H.
  - by intros ->.
Qed.

Lemma arista_config_mode_prefix_only_witness :
  AristaBase.config_mode (mkConnection LF "loc1-core01-rack12-row7") None None None
  = AristaBase.config_mode (mkConnection LF "loc1-core01-rack99") None None None.
Proof.
  exact (proj2 (arista_config_mode_prefix_only
                  (mkConnection LF "loc1-core01-rack12-row7")
                  (mkConnection LF "loc1-core01-rack99") None None)
               eq_refl).
Defined.

(** X7.  The pattern made up from [base_prompt] has between 6 and 38
    characters, however long the prompt is. *)
Theorem arista_config_mode_pattern_bounded
    (self : Connection) (config_command : option string) (re_flags : option Z) :
  exists flags : Z,
    AristaBase.config_mode self config_command None re_flags
    = call (super_config_mode (default "configure terminal" config_command)
              (synthesized_pattern (base_prompt self)) flags) /\
    6 <= String.length (synthesized_pattern (base_prompt self)) <= 38.
Proof.
  eexists. split; [reflexivity|].
  unfold synthesized_pattern. rewrite !str_length_app.
  pose proof (re_escape_length (take 16 (base_prompt self))) as He.
  pose proof (take_length 16 (base_prompt self)) as Ht.
  change (String.length ".*") with 2.
  change (String.length (re_escape ")#")) with 4.
  lia.
Qed.

(** ** Endace: more on entering configuration mode *)

Section EndaceMore.

Context {W : Type} (h : Handler W).

Ltac next_answer :=
  match goal with
  | |- context [h ?c ?w] =>
      let e := fresh "e" in
      let r := fresh "r" in
      let w' := fresh "w" in
      let E := fresh "E" in
      destruct (h c w) as [[e|r] w'] eqn:E;
      [ | lazymatch c with
          | super_check_config_mode _ _ => destruct r
          | send_command_timing _ _ _ => destruct r as [?d|?v]
          | _ => idtac
          end ];
      cbn
  end.

Ltac all_paths :=
  unfold EndaceSSH.config_mode, EndaceSSH.check_config_mode; cbn;
  repeat first
    [ next_answer
    | match goal with
      | |- context [str_in ?a ?b] => destruct (str_in a b) eqn:?; cbn
      end ].

(** X8.  Without the warning in the answer to the configuration command,
    [config_mode] sends no YES: it checks, sends the command, checks again,
    and returns the command's output when the second check says yes;
    otherwise it raises the [ValueError]. *)
Theorem endace_config_mode_no_warning
    (config_command pattern : option string) (re_flags : option Z)
    (w w1 w2 w3 : W) (d1 : string) (b : bool) :
  default "conf t" config_command <> "YES" ->
  h (super_check_config_mode "(config) #" "") w = (inr false, w1) ->
  h (send_command_timing (default "conf t" config_command) false false) w1
  = (inr (OutStr d1), w2) ->
  str_in "to enter configuration mode anyway" d1 = false ->
  h (super_check_config_mode "(config) #" "") w2 = (inr b, w3) ->
  let config := EndaceSSH.config_mode config_command pattern re_flags in
  run h config w =
    mkOutcome
      (if b then inr d1
       else inl (ValueError "Failed to enter configuration mode"))
      w3
      [ Ev (super_check_config_mode "(config) #" "") (inr false);
        Ev (send_command_timing (default "conf t" config_command) false false)
          (inr (OutStr d1));
        Ev (super_check_config_mode "(config) #" "") (inr b) ] /\
  count_sent "YES" (trace (run h config w)) = 0.
Proof.
  intros Hne Hc1 Hs1 Hwarn Hc2 config.
  assert (run h config w =
          mkOutcome
            (if b then inr d1
             else inl (ValueError "Failed to enter configuration mode"))
            w3
            [ Ev (super_check_config_mode "(config) #" "") (inr false);
              Ev (send_command_timing (default "conf t" config_command) false false)
                (inr (OutStr d1));
              Ev (super_check_config_mode "(config) #" "") (inr b) ]) as E.
  { subst config.
    unfold EndaceSSH.config_mode, EndaceSSH.check_config_mode. cbn.
    rewrite Hc1. cbn. rewrite Hs1. cbn. rewrite Hwarn. cbn.
    rewrite Hc2. by destruct b. }
  split; [exact E|]. rewrite E. cbn.
  apply String.eqb_neq in Hne. by rewrite Hne.
Qed.

(** X9.  An answer that is not text ends [config_mode] in an
    [AssertionError] on the spot: after such an answer to the configuration
    command nothing more is sent, and after such an answer to YES the
    session is not checked again. *)
Theorem endace_config_mode_structured_output
    (config_command pattern : option string) (re_flags : option Z) (w w1 : W) :
  h (super_check_config_mode "(config) #" "") w = (inr false, w1) ->
  let config := EndaceSSH.config_mode config_command pattern re_flags in
  let send := send_command_timing (default "conf t" config_command) false false in
  (forall v w2,
     h send w1 = (inr (OutStructured v), w2) ->
     run h config w =
       mkOutcome (inl AssertionError) w2
         [ Ev (super_check_config_mode "(config) #" "") (inr false);
           Ev send (inr (OutStructured v)) ]) /\
  (forall d1 v w2 w3,
     h send w1 = (inr (OutStr d1), w2) ->
     str_in "to enter configuration mode anyway" d1 = true ->
     h (send_command_timing "YES" false false) w2 = (inr (OutStructured v), w3) ->
     run h config w =
       mkOutcome (inl AssertionError) w3
         [ Ev (super_check_config_mode "(config) #" "") (inr false);
           Ev send (inr (OutStr d1));
           Ev (send_command_timing "YES" false false) (inr (OutStructured v)) ]).
Proof.
  intros Hc config send. subst config send.
  unfold EndaceSSH.config_mode, EndaceSSH.check_config_mode. cbn.
  rewrite Hc. cbn. split.
  - intros v w2 Hs. by rewrite Hs.
  - intros d1 v w2 w3 Hs Hwarn Hy. rewrite Hs. cbn. rewrite Hwarn. cbn.
    by rewrite Hy.
Qed.

(** X10.  What [config_mode] returns is the text of the answers to the
    commands it sent, joined in the order of sending, and it returns only
    right after a check that found the session in configuration mode. *)
Theorem endace_config_mode_returns_sent_output
    (config_command pattern : option string) (re_flags : option Z)
    (w : W) (out : string) :
  let config := EndaceSSH.config_mode config_command pattern re_flags in
  result (run h config w) = inr out ->
  out = sent_output "" (trace (run h config w)) /\
  last (trace (run h config w))
  = Some (Ev (super_check_config_mode "(config) #" "") (inr true)).
Proof.
  intros config Hres. split.
  - revert Hres. subst config. all_paths; intros [= <-]; reflexivity.
  - by apply (endace_config_mode_returns_checked h _ _ _ _ out).
Qed.

(** X11.  Whatever the device does, [config_mode] starts with a check, makes
    at most four calls, and sends at most two commands. *)
Theorem endace_config_mode_bounded
    (config_command pattern : option string) (re_flags : option Z) (w : W) :
  let config := EndaceSSH.config_mode config_command pattern re_flags in
  (exists r, head (trace (run h config w))
             = Some (Ev (super_check_config_mode "(config) #" "") r)) /\
  length (trace (run h config w)) <= 4 /\
  count_sends (trace (run h config w)) <= 2.
Proof.
  intros config. subst config. split; [|split].
  - unfold EndaceSSH.config_mode, EndaceSSH.check_config_mode. cbn.
    destruct (h _ w) as [[e|r] w']; cbn; by eexists.
  - all_paths; lia.
  - all_paths; lia.
Qed.

(** ** Endace: more on saving *)

(** X12.  When [enable] raises, [save_config] stops there.  When
    [config_mode] raises, [save_config] raises the same exception and the
    inherited [save_config] is not called. *)
Theorem endace_save_config_stops_on_failure
    (cmd : option string) (confirm : option bool)
    (confirm_response : option string) (w : W) :
  let save := EndaceSSH.save_config cmd confirm confirm_response in
  (forall e w1,
     h (super_enable "enable" "" None IGNORECASE) w = (inl e, w1) ->
     run h save w =
       mkOutcome (inl e) w1
         [Ev (super_enable "enable" "" None IGNORECASE) (inl e)]) /\
  (forall en w1 e,
     h (super_enable "enable" "" None IGNORECASE) w = (inr en, w1) ->
     result (run h (EndaceSSH.config_mode None None None) w1) = inl e ->
     result (run h save w) = inl e /\
     (forall ev, ev ∈ trace (run h save w) -> is_save ev = false)).
Proof.
  intros save. subst save.
  unfold EndaceSSH.save_config, EndaceSSH.enable. cbn [default]. split.
  - intros e w1 Hen. by rewrite (run_call_err h _ _ _ _ _ Hen).
  - intros en w1 e Hen Hcm.
    rewrite (run_call_ok h _ _ _ _ _ Hen), run_bind, Hcm.
    cbn [after result trace]. split; [done|].
    intros ev [->|Hev]%elem_of_cons; [done|].
    by apply (endace_config_mode_no_save h None None None w1).
Qed.

(** X13.  On a session that [enable] leaves in configuration mode,
    [save_config] makes three calls, [enable], the check and the inherited
    [save_config], and ends as the last one ends. *)
Theorem endace_save_config_in_config_mode
    (cmd : option string) (confirm : option bool)
    (confirm_response : option string) (w w1 w2 : W) (en : string) :
  h (super_enable "enable" "" None IGNORECASE) w = (inr en, w1) ->
  h (super_check_config_mode "(config) #" "") w1 = (inr true, w2) ->
  let save_call :=
    super_save_config (default "configuration write" cmd)
      (default false confirm) (default "" confirm_response) in
  run h (EndaceSSH.save_config cmd confirm confirm_response) w =
    mkOutcome (h save_call w2).1 (h save_call w2).2
      [ Ev (super_enable "enable" "" None IGNORECASE) (inr en);
        Ev (super_check_config_mode "(config) #" "") (inr true);
        Ev save_call (h save_call w2).1 ].
Proof.
  intros Hen Hc save_call. subst save_call.
  unfold EndaceSSH.save_config, EndaceSSH.enable,
    EndaceSSH.config_mode, EndaceSSH.check_config_mode.
  cbn. rewrite Hen. cbn. rewrite Hc. cbn.
  by destruct (h _ w2) as [[e|r] w3].
Qed.

End EndaceMore.

Lemma endace_config_mode_no_warning_witness :
  run probe_device (EndaceSSH.config_mode None None None)
    (mkProbe false false false true)
  = mkOutcome (inr "(config) # ") (mkProbe true false false true)
      [ Ev (super_check_config_mode "(config) #" "") (inr false);
        Ev (send_command_timing "conf t" false false) (inr (OutStr "(config) # "));
        Ev (super_check_config_mode "(config) #" "") (inr true) ].
Proof.
  exact (proj1 (endace_config_mode_no_warning probe_device None None None
                  (mkProbe false false false true)
                  (mkProbe false false false true)
                  (mkProbe true false false true)
                  (mkProbe true false false true)
                  "(config) # " true
                  ltac:(discriminate) eq_refl eq_refl eq_refl eq_refl)).
Defined.

Lemma endace_config_mode_structured_output_witness :
  result (run parsing_device (EndaceSSH.config_mode None None None) 0)
  = inl AssertionError /\
  run half_parsing_device (EndaceSSH.config_mode None None None) 0
  = mkOutcome (inl AssertionError) 3
      [ Ev (super_check_config_mode "(config) #" "") (inr false);
        Ev (send_command_timing "conf t" false false) (inr (OutStr warning_text));
        Ev (send_command_timing "YES" false false) (inr (OutStructured [])) ].
Proof.
  split.
  - destruct (endace_config_mode_structured_output parsing_device
                None None None 0 1 eq_refl) as [Hcmd _].
    by rewrite (Hcmd [] 2 eq_refl).
  - destruct (endace_config_mode_structured_output half_parsing_device
                None None None 0 1 eq_refl) as [_ Hyes].
    exact (Hyes warning_text [] 2 3 eq_refl eq_refl eq_refl).
Defined.

Lemma endace_config_mode_returns_sent_output_witness :
  warning_text +:+ "YES"
  = sent_output ""
      (trace (run probe_device (EndaceSSH.config_mode None None None)
                (mkProbe false true false true))).
Proof.
  exact (proj1 (endace_config_mode_returns_sent_output probe_device
                  None None None (mkProbe false true false true)
                  (warning_text +:+ "YES") eq_refl)).
Defined.

Lemma endace_save_config_stops_on_failure_witness :
  run dead_device (EndaceSSH.save_config None None None) ()
  = mkOutcome (inl (External "ReadTimeout" "channel closed")) ()
      [ Ev (super_enable "enable" "" None IGNORECASE)
          (inl (External "ReadTimeout" "channel closed")) ] /\
  result (run probe_device (EndaceSSH.save_config None None None)
            (mkProbe false true false false))
  = inl (ValueError "Failed to enter configuration mode").
Proof.
  split.
  - destruct (endace_save_config_stops_on_failure dead_device
                None None None ()) as [Hen _].
    exact (Hen _ _ eq_refl).
  - destruct (endace_save_config_stops_on_failure probe_device
                None None None (mkProbe false true false false)) as [_ Hcm].
    exact (proj1 (Hcm "# " (mkProbe false true false false)
                    (ValueError "Failed to enter configuration mode")
                    eq_refl eq_refl)).
Defined.

Lemma endace_save_config_in_config_mode_witness :
  run probe_device (EndaceSSH.save_config None None None)
    (mkProbe true false false true)
  = mkOutcome (inr "saved") (mkProbe true false false true)
      [ Ev (super_enable "enable" "" None IGNORECASE) (inr "# ");
        Ev (super_check_config_mode "(config) #" "") (inr true);
        Ev (super_save_config "configuration write" false "") (inr "saved") ].
Proof.
  exact (endace_save_config_in_config_mode probe_device None None None
           (mkProbe true false false true) (mkProbe true false false true)
           (mkProbe true false false true) "# " eq_refl eq_refl).
Defined.

(** ** Arista: more on the file transfer *)

(** X14.  When no remote file is given and the [direction] attribute is
    neither [put] nor [get], [remote_md5] asks for the file named [None]:
    the command ends in [/None]. *)
Theorem arista_remote_md5_unknown_direction
    (self : Transfer) (base_cmd : option string) :
  direction self <> "put" ->
  direction self <> "get" ->
  first_call (AristaFileTransfer.remote_md5 self base_cmd None)
  = Some (send_command
            (default "verify /md5" base_cmd +:+ " file:" +:+ file_system self
             +:+ "/None") 600).
Proof.
  intros Hput%String.eqb_neq Hget%String.eqb_neq.
  unfold AristaFileTransfer.remote_md5. by rewrite Hput, Hget.
Qed.

Lemma arista_remote_md5_unknown_direction_witness :
  first_call (AristaFileTransfer.remote_md5
                (mkTransfer "eos.swi" "eos-new.swi" "/mnt/flash" "push")
                None None)
  = Some (send_command "verify /md5 file:/mnt/flash/None" 600).
Proof.
  exact (arista_remote_md5_unknown_direction
           (mkTransfer "eos.swi" "eos-new.swi" "/mnt/flash" "push") None
           ltac:(discriminate) ltac:(discriminate)).
Defined.



(** ** Arista: more on the Telnet constructor *)

(** X16.  The keywords that [AristaTelnet] hands to the inherited
    constructor always hold [default_enter], and never as [None]; their keys
    are the caller's and [default_enter]; and constructing again from them
    hands on the same keywords. *)
Theorem arista_telnet_default_enter_always_set
    (args : list PyVal) (kwargs : gmap string PyVal) :
  exists (kwargs' : gmap string PyVal) (v : PyVal),
    AristaTelnet.__init__ args kwargs
    = call (super_init_connection args kwargs') /\
    kwargs' !! "default_enter" = Some v /\
    is_none v = false /\
    dom kwargs' = {["default_enter"]} ∪ dom kwargs /\
    AristaTelnet.__init__ args kwargs'
    = call (super_init_connection args kwargs').
Proof.
  unfold AristaTelnet.__init__, dict_get.
  set (v := if is_none (default PyNone (kwargs !! "default_enter"))
            then PyStr CRLF else default PyNone (kwargs !! "default_enter")).
  assert (is_none v = false) as Hv.
  { subst v. by destruct (default PyNone (kwargs !! "default_enter")). }
  exists (<["default_enter" := v]> kwargs), v.
  split; [done|]. clearbody v.
  split; [by rewrite lookup_insert_eq|].
  split; [done|]. split; [by rewrite dom_insert_L|].
  rewrite lookup_insert_eq. cbn [default id]. rewrite Hv.
  by rewrite insert_insert_eq.
Qed.

(** ** Session set-up and the shell *)

Section Session.

Context {W : Type} (h : SHandler W).

Ltac session_step :=
  match goal with
  | |- context [h ?c ?w] =>
      let e := fresh "e" in
      let r := fresh "r" in
      let w' := fresh "w" in
      destruct (h c w) as [[e|r] w']; cbn
  end.

(** X17.  The Arista [session_preparation] sets the terminal width, then
    disables paging, then sets the base prompt.  It stops at the first step
    that raises, with that exception; it returns only when all three steps
    answered. *)
Theorem arista_session_preparation_order (w : W) :
  let o := srun h AristaBaseSession.session_preparation w in
  map sev_call (strace o) `prefix_of` arista_preparation_steps /\
  match sresult o with
  | inr _ =>
      map sev_call (strace o) = arista_preparation_steps /\
      all_answered (strace o) = true
  | inl e => exists c, last (strace o) = Some (SEv c (inl e))
  end.
Proof.
  intros o. subst o.
  unfold AristaBaseSession.session_preparation, arista_preparation_steps. cbn.
  repeat session_step;
    (split; [eexists; reflexivity|]);
    lazymatch goal with
    | |- exists c, Some (SEv ?c0 _) = _ => exists c0; reflexivity
    | |- _ => split; reflexivity
    end.
Qed.

(** X18.  The Endace [session_preparation] reads the channel, sets the base
    prompt, sets the terminal width, then disables paging with
    [no cli session paging enable].  It stops at the first step that raises,
    with that exception; it returns only when all four steps answered. *)
Theorem endace_session_preparation_order (w : W) :
  let o := srun h EndaceSSHSession.session_preparation w in
  map sev_call (strace o) `prefix_of` endace_preparation_steps /\
  match sresult o with
  | inr _ =>
      map sev_call (strace o) = endace_preparation_steps /\
      all_answered (strace o) = true
  | inl e => exists c, last (strace o) = Some (SEv c (inl e))
  end.
Proof.
  intros o. subst o.
  unfold EndaceSSHSession.session_preparation, endace_preparation_steps. cbn.
  repeat session_step;
    (split; [eexists; reflexivity|]);
    lazymatch goal with
    | |- exists c, Some (SEv ?c0 _) = _ => exists c0; reflexivity
    | |- _ => split; reflexivity
    end.
Qed.

(** X19.  [_enter_shell] sends [bash] and [_return_cli] sends [exit], each
    once, and each returns the text that came back; one after the other they
    send [bash], then [exit].  An answer that is not text ends either in an
    [AssertionError]. *)
Theorem arista_shell_round_trip (w : W) :
  let bash := send_command_expect "bash" "[\$#]" in
  let exit := send_command_expect "exit" "[#>]" in
  (forall s1 s2 w1 w2,
     h bash w = (inr (OutStr s1), w1) ->
     h exit w1 = (inr (OutStr s2), w2) ->
     srun h (a ← AristaBaseSession._enter_shell;
             b ← AristaBaseSession._return_cli;
             mret (a, b)) w
     = mkSOutcome (inr (s1, s2)) w2
         [SEv bash (inr (OutStr s1)); SEv exit (inr (OutStr s2))]) /\
  (forall v w1,
     h bash w = (inr (OutStructured v), w1) ->
     srun h AristaBaseSession._enter_shell w
     = mkSOutcome (inl AssertionError) w1 [SEv bash (inr (OutStructured v))]) /\
  (forall v w1,
     h exit w = (inr (OutStructured v), w1) ->
     srun h AristaBaseSession._return_cli w
     = mkSOutcome (inl AssertionError) w1 [SEv exit (inr (OutStructured v))]).
Proof.
  intros bash exit. subst bash exit.
  unfold AristaBaseSession._enter_shell, AristaBaseSession._return_cli. cbn.
  split; [|split].
  - intros s1 s2 w1 w2 H1 H2. rewrite H1. cbn. by rewrite H2.
  - intros v w1 H1. by rewrite H1.
  - intros v w1 H1. by rewrite H1.
Qed.

End Session.

Lemma arista_shell_round_trip_witness :
  srun (step_device (fun _ => false))
    (a ← AristaBaseSession._enter_shell;
     b ← AristaBaseSession._return_cli;
     mret (a, b)) 0
  = mkSOutcome (inr ("bash" +:+ LF, "exit" +:+ LF)) 2
      [ SEv (send_command_expect "bash" "[\$#]") (inr (OutStr ("bash" +:+ LF)));
        SEv (send_command_expect "exit" "[#>]") (inr (OutStr ("exit" +:+ LF))) ] /\
  sresult (srun parsing_session_device AristaBaseSession._enter_shell 0)
  = inl AssertionError /\
  sresult (srun parsing_session_device AristaBaseSession._return_cli 0)
  = inl AssertionError.
Proof.
  split; [|split].
  - destruct (arista_shell_round_trip (step_device (fun _ => false)) 0)
      as (H & _ & _).
    exact (H _ _ 1 2 eq_refl eq_refl).
  - destruct (arista_shell_round_trip parsing_session_device 0) as (_ & H & _).
    by rewrite (H _ _ eq_refl).
  - destruct (arista_shell_round_trip parsing_session_device 0) as (_ & _ & H).
    by rewrite (H _ _ eq_refl).
Defined.

(** * The configuration-mode check and the save, in full *)

(** ** [replace] against [Stripped] *)

Lemma stripped_inv (mk t u : string) :
  Stripped mk t u ->
  (t = "" /\ u = "") \/
  (exists p, t = mk +:+ p /\ Stripped mk p u) \/
  (exists c p u0, t = String c p /\ u = String c u0 /\
     startswith mk t = false /\ Stripped mk p u0).
Proof.
  destruct 1 as [|p u H|c p u Hs H]; [by left|right; left|right; right].
  - by exists p.
  - by exists c, p, u.
Qed.

(** Python's replacement by the empty string leaves out every occurrence
    and keeps the rest. *)
Lemma stripped_replace (a : ascii) (k text : string) :
  Stripped (String a k) text (replace (String a k) "" text).
Proof.
  assert (forall n p, String.length p <= n ->
            Stripped (String a k) p (replace (String a k) "" p)) as Hn.
  { induction n as [|n IH]; intros [|c p] Hlen;
      try (by constructor); cbn [String.length] in Hlen; [lia|].
    destruct (startswith (String a k) (String c p)) eqn:E.
    - destruct (startswith_decompose _ _ E) as [t Ht].
      rewrite Ht, replace_hit.
      change ("" +:+ replace (String a k) "" t)
        with (replace (String a k) "" t).
      apply stripped_drop, IH.
      apply (f_equal String.length) in Ht.
      rewrite str_length_app in Ht. cbn [String.length] in Ht. lia.
    - rewrite replace_keep by done.
      apply stripped_keep; [done|]. apply IH. lia. }
  by apply (Hn (String.length text)).
Qed.

(** [Stripped] relates a text to one cleaned text only. *)
Lemma stripped_unique (a : ascii) (k t u u' : string) :
  Stripped (String a k) t u -> Stripped (String a k) t u' -> u = u'.
Proof.
  intros H. revert u'.
  induction H as [|p u H IH|c p u Hs H IH]; intros u' H';
    apply stripped_inv in H'
      as [[Ht Hu]|[(p' & Ht & H')|(c' & p' & u0 & Ht & Hu & Hs' & H')]].
  - done.
  - discriminate Ht.
  - discriminate Ht.
  - discriminate Ht.
  - apply (inj (String.append (String a k))) in Ht as <-. by apply IH.
  - by rewrite startswith_app in Hs'.
  - discriminate Ht.
  - rewrite Ht, startswith_app in Hs. discriminate.
  - injection Ht as <- <-. subst u'. f_equal. by apply IH.
Qed.

(** ** Arista: the configuration-mode check *)

(** C4.  On a channel that takes the write and answers the read, one call of
    [check_config_mode] writes the line terminator [RETURN] once (the one
    newline character when that is the terminator), reads once until the
    pattern (by default [[>\#]]), takes every occurrence of [(s1)] out of
    the text read and then every occurrence of [(s2)] out of the result,
    keeping all other characters, and returns true exactly when the check
    string (by default [)#]) occurs in the cleaned text.  The cleaned text
    is fixed by this; for markers put into a text without markers it is that
    text.  This holds from every world, so for every call of a session: a
    second call cleans what it reads itself. *)
Theorem arista_check_config_mode_strips_each_call
    {W : Type} (h : Handler W) (self : Connection)
    (check_string pattern : option string) (w w1 w2 : W) (out : string) :
  h (write_channel (RETURN self)) w = (inr (), w1) ->
  h (read_until_pattern (default "[>\#]" pattern)) w1 = (inr out, w2) ->
  let check := AristaBase.check_config_mode self check_string pattern in
  exists (mid cleaned : string) (b : bool),
    run h check w =
      mkOutcome (inr b) w2
        [ Ev (write_channel (RETURN self)) (inr ());
          Ev (read_until_pattern (default "[>\#]" pattern)) (inr out) ] /\
    (RETURN self = LF ->
       map ev_call (trace (run h check w)) =
         [ write_channel (String (ascii_of_nat 10) "");
           read_until_pattern (default "[>\#]" pattern) ]) /\
    Stripped "(s1)" out mid /\
    Stripped "(s2)" mid cleaned /\
    (forall mid' cleaned',
       Stripped "(s1)" out mid' -> Stripped "(s2)" mid' cleaned' ->
       cleaned' = cleaned) /\
    (forall u, Decorated any_marker u out -> marker_free u -> cleaned = u) /\
    (b = true <->
       exists a z, cleaned = a +:+ default ")#" check_string +:+ z) /\
    (forall (w3 w4 : W) (out' : string),
       h (write_channel (RETURN self)) w2 = (inr (), w3) ->
       h (read_until_pattern (default "[>\#]" pattern)) w3 = (inr out', w4) ->
       exists (mid2 cleaned2 : string) (b2 : bool),
         result (run h (b1 ← check; b2 ← check; mret (b1, b2)) w)
         = inr (b, b2) /\
         Stripped "(s1)" out' mid2 /\
         Stripped "(s2)" mid2 cleaned2 /\
         (b2 = true <->
            exists a z, cleaned2 = a +:+ default ")#" check_string +:+ z)).
Proof.
  intros Hw Hr check.
  pose proof (arista_check_run h self check_string pattern w w1 w2 out Hw Hr) as E.
  fold check in E. unfold AristaBase.strip_quirks in E.
  exists (replace "(s1)" "" out), (replace "(s2)" "" (replace "(s1)" "" out)),
    (str_in (default ")#" check_string)
       (replace "(s2)" "" (replace "(s1)" "" out))).
  split; [exact E|]. split.
  { intros HLF. rewrite E. cbn [trace map ev_call]. by rewrite HLF. }
  split; [apply stripped_replace|]. split; [apply stripped_replace|]. split.
  { intros mid' cleaned' H1 H2.
    rewrite (stripped_unique _ _ _ _ _ H1 (stripped_replace _ _ out)) in H2.
    exact (stripped_unique _ _ _ _ _ H2 (stripped_replace _ _ _)). }
  split.
  { intros u Hd Hfree. exact (strip_decorated u out Hd Hfree). }
  split; [apply str_in_spec|].
  intros w3 w4 out' Hw' Hr'.
  pose proof (arista_check_run h self check_string pattern w2 w3 w4 out' Hw' Hr') as E'.
  fold check in E'. unfold AristaBase.strip_quirks in E'.
  exists (replace "(s1)" "" out'), (replace "(s2)" "" (replace "(s1)" "" out')),
    (str_in (default ")#" check_string)
       (replace "(s2)" "" (replace "(s1)" "" out'))).
  split.
  { rewrite run_bind, E. cbn [result world trace].
    rewrite run_bind, E'. reflexivity. }
  split; [apply stripped_replace|]. split; [apply stripped_replace|].
  apply str_in_spec.
Qed.

(** The prompts of a switch with a supervisor marker, read with the default
    arguments over a session whose terminator is the newline: the marker
    goes, so the check says no on the enable prompt and yes on the
    configuration prompt. *)
Lemma arista_check_config_mode_strips_each_call_witness :
  let self := mkConnection LF "loc1-core01" in
  let check := AristaBase.check_config_mode self None None in
  run (prompt_device "loc1-core01(s1)#") check [] =
    mkOutcome (inr false) [LF]
      [ Ev (write_channel LF) (inr ());
        Ev (read_until_pattern "[>\#]") (inr "loc1-core01(s1)#") ] /\
  run (prompt_device "loc1-core01(s1)(config)#") check [] =
    mkOutcome (inr true) [LF]
      [ Ev (write_channel LF) (inr ());
        Ev (read_until_pattern "[>\#]") (inr "loc1-core01(s1)(config)#") ].
Proof.
  intros self check. split.
  - destruct (arista_check_config_mode_strips_each_call
                (prompt_device "loc1-core01(s1)#") self None None
                [] [LF] [LF] "loc1-core01(s1)#" eq_refl eq_refl)
      as (mid & cleaned & b & Hrun & _ & _ & _ & _ & Hdec & Hb & _).
    rewrite (Hdec "loc1-core01#" (decorated_behind "loc1-core01" S1 "#")
               (conj eq_refl eq_refl)) in Hb.
    destruct b; [|exact Hrun].
    apply proj1 in Hb. specialize (Hb eq_refl).
    apply str_in_spec in Hb. discriminate Hb.
  - destruct (arista_check_config_mode_strips_each_call
                (prompt_device "loc1-core01(s1)(config)#") self None None
                [] [LF] [LF] "loc1-core01(s1)(config)#" eq_refl eq_refl)
      as (mid & cleaned & b & Hrun & _ & _ & _ & _ & Hdec & Hb & _).
    rewrite (Hdec "loc1-core01(config)#"
               (decorated_behind "loc1-core01" S1 "(config)#")
               (conj eq_refl eq_refl)) in Hb.
    destruct b; [exact Hrun|].
    apply proj2 in Hb.
    discriminate (Hb (ex_intro _ "loc1-core01(config"
                        (ex_intro _ "" eq_refl))).
Defined.

(** ** Endace: saving the configuration *)

Section EndaceSave.

Context {W : Type} (h : Handler W).

(** [config_mode] starts with the check. *)
Lemma endace_config_mode_starts_with_check
    (config_command pattern : option string) (re_flags : option Z) (w : W) :
  exists (r : Exn + bool) (t : list Event),
    trace (run h (EndaceSSH.config_mode config_command pattern re_flags) w)
    = Ev (super_check_config_mode "(config) #" "") r :: t.
Proof.
  unfold EndaceSSH.config_mode, EndaceSSH.check_config_mode. cbn.
  destruct (h (super_check_config_mode "(config) #" "") w) as [[e|r] w'];
    cbn; by eexists _, _.
Qed.

(** The run of [save_config], step by step. *)
Lemma endace_save_config_run
    (cmd : option string) (confirm : option bool)
    (confirm_response : option string) (w : W) :
  let enable_call := super_enable "enable" "" None IGNORECASE in
  let save_call :=
    super_save_config (default "configuration write" cmd)
      (default false confirm) (default "" confirm_response) in
  run h (EndaceSSH.save_config cmd confirm confirm_response) w =
  match h enable_call w with
  | (inl e, w1) => mkOutcome (inl e) w1 [Ev enable_call (inl e)]
  | (inr en, w1) =>
      let cm := run h (EndaceSSH.config_mode None None None) w1 in
      match result cm with
      | inl e =>
          mkOutcome (inl e) (world cm) (Ev enable_call (inr en) :: trace cm)
      | inr _ =>
          mkOutcome (h save_call (world cm)).1 (h save_call (world cm)).2
            (Ev enable_call (inr en)
             :: trace cm ++ [Ev save_call (h save_call (world cm)).1])
      end
  end.
Proof.
  intros enable_call save_call. subst enable_call.
  unfold EndaceSSH.save_config, EndaceSSH.enable. cbn [default].
  fold save_call.
  destruct (h (super_enable "enable" "" None IGNORECASE) w)
    as [[e|en] w1] eqn:Hen.
  - by rewrite (run_call_err h _ _ _ _ _ Hen).
  - rewrite (run_call_ok h _ _ _ _ _ Hen), run_bind. cbn zeta.
    destruct (result (run h (EndaceSSH.config_mode None None None) w1))
      as [e|out]; [done|].
    cbn [after result world trace]. cbn [run call].
    by destruct (h save_call
                   (world (run h (EndaceSSH.config_mode None None None) w1)))
      as [[e|r] w3].
Qed.

(** C10.  [save_config] calls the inherited [enable] first and stops there
    when it raises.  When [enable] returns it runs [config_mode], whose
    first call is the check, and stops there when [config_mode] raises.
    When [config_mode] returns it calls the inherited [save_config] with the
    arguments given (by default the command [configuration write]) and ends
    as that call ends.  So a call of the inherited [save_config] is the last
    call of the run, and before it [enable] returned and [config_mode]
    returned, ending on a check that found the session in configuration
    mode. *)
Theorem endace_save_config_from_config_mode
    (cmd : option string) (confirm : option bool)
    (confirm_response : option string) (w : W) :
  let save := EndaceSSH.save_config cmd confirm confirm_response in
  let enable_call := super_enable "enable" "" None IGNORECASE in
  let check_call := super_check_config_mode "(config) #" "" in
  let save_call :=
    super_save_config (default "configuration write" cmd)
      (default false confirm) (default "" confirm_response) in
  run h save w =
    match h enable_call w with
    | (inl e, w1) => mkOutcome (inl e) w1 [Ev enable_call (inl e)]
    | (inr en, w1) =>
        let cm := run h (EndaceSSH.config_mode None None None) w1 in
        match result cm with
        | inl e =>
            mkOutcome (inl e) (world cm) (Ev enable_call (inr en) :: trace cm)
        | inr _ =>
            mkOutcome (h save_call (world cm)).1 (h save_call (world cm)).2
              (Ev enable_call (inr en)
               :: trace cm ++ [Ev save_call (h save_call (world cm)).1])
        end
    end /\
  (exists r, head (trace (run h save w)) = Some (Ev enable_call r)) /\
  (forall en w1,
     h enable_call w = (inr en, w1) ->
     exists r, trace (run h save w) !! 1 = Some (Ev check_call r)) /\
  (forall en w1 out,
     h enable_call w = (inr en, w1) ->
     result (run h (EndaceSSH.config_mode None None None) w1) = inr out ->
     let w2 := world (run h (EndaceSSH.config_mode None None None) w1) in
     result (run h save w) = (h save_call w2).1 /\
     world (run h save w) = (h save_call w2).2 /\
     last (trace (run h save w)) = Some (Ev save_call (h save_call w2).1)) /\
  (forall e : Event,
     e ∈ trace (run h save w) ->
     is_save e = true ->
     exists (en : string) (w1 : W) (out : string) (r : Exn + string),
       h enable_call w = (inr en, w1) /\
       result (run h (EndaceSSH.config_mode None None None) w1) = inr out /\
       last (trace (run h (EndaceSSH.config_mode None None None) w1))
       = Some (Ev check_call (inr true)) /\
       e = Ev save_call r /\
       trace (run h save w) =
         Ev enable_call (inr en)
         :: trace (run h (EndaceSSH.config_mode None None None) w1) ++ [e]).
Proof.
  intros save enable_call check_call save_call.
  pose proof (endace_save_config_run cmd confirm confirm_response w) as Hrun.
  subst save enable_call check_call save_call. cbn zeta in Hrun |- *.
  split; [exact Hrun|]. rewrite Hrun. clear Hrun.
  destruct (h (super_enable "enable" "" None IGNORECASE) w)
    as [[x|en] w1] eqn:Hen.
  { cbn [trace result world head].
    split; [eexists; reflexivity|]. split; [by intros ? ? [=]|].
    split; [by intros ? ? ? [=]|].
    intros e He%list_elem_of_singleton Hs. by subst e. }
  pose proof (endace_config_mode_no_save h None None None w1) as Hno.
  pose proof (endace_config_mode_returns_checked h None None None w1) as Hlast.
  destruct (endace_config_mode_starts_with_check None None None w1)
    as (r0 & t0 & Hhead).
  destruct (result (run h (EndaceSSH.config_mode None None None) w1))
    as [x|out] eqn:Hcm; cbn [trace result world head].
  - split; [eexists; reflexivity|]. split.
    { intros ? ? _. rewrite Hhead. by exists r0. }
    split; [intros ? ? ? [= <- <-]; rewrite Hcm; by intros [=]|].
    intros e [->|He]%elem_of_cons Hs; [done|].
    rewrite (Hno _ He) in Hs. discriminate.
  - split; [eexists; reflexivity|]. split.
    { intros ? ? _. rewrite Hhead. by exists r0. }
    split.
    { intros en' w1' out' [= <- <-] _. cbn zeta.
      split; [done|]. split; [done|].
      rewrite app_comm_cons. apply last_snoc. }
    intros e He Hs.
    assert (e = Ev (super_save_config (default "configuration write" cmd)
                      (default false confirm) (default "" confirm_response))
                  (h (super_save_config (default "configuration write" cmd)
                        (default false confirm) (default "" confirm_response))
                     (world (run h (EndaceSSH.config_mode None None None) w1))).1)
      as ->.
    { apply elem_of_cons in He as [->|He]; [done|].
      apply elem_of_app in He as [He|He%list_elem_of_singleton]; [|done].
      rewrite (Hno _ He) in Hs. discriminate. }
    eexists en, w1, out, _.
    split; [done|]. split; [exact Hcm|].
    split; [exact (Hlast _ eq_refl)|]. split; reflexivity.
Qed.

End EndaceSave.

(** A probe that shows the warning and honours YES, one that does not, and
    a closed channel. *)
Lemma endace_save_config_from_config_mode_witness :
  run probe_device (EndaceSSH.save_config None None None)
    (mkProbe false true false true)
  = mkOutcome (inr "saved") (mkProbe true true false true)
      [ Ev (super_enable "enable" "" None IGNORECASE) (inr "# ");
        Ev (super_check_config_mode "(config) #" "") (inr false);
        Ev (send_command_timing "conf t" false false) (inr (OutStr warning_text));
        Ev (send_command_timing "YES" false false) (inr (OutStr "YES"));
        Ev (super_check_config_mode "(config) #" "") (inr true);
        Ev (super_save_config "configuration write" false "") (inr "saved") ] /\
  run probe_device (EndaceSSH.save_config None None None)
    (mkProbe false true false false)
  = mkOutcome (inl (ValueError "Failed to enter configuration mode"))
      (mkProbe false true false false)
      [ Ev (super_enable "enable" "" None IGNORECASE) (inr "# ");
        Ev (super_check_config_mode "(config) #" "") (inr false);
        Ev (send_command_timing "conf t" false false) (inr (OutStr warning_text));
        Ev (send_command_timing "YES" false false) (inr (OutStr "YES"));
        Ev (super_check_config_mode "(config) #" "") (inr false) ] /\
  run dead_device (EndaceSSH.save_config None None None) ()
  = mkOutcome (inl (External "ReadTimeout" "channel closed")) ()
      [ Ev (super_enable "enable" "" None IGNORECASE)
          (inl (External "ReadTimeout" "channel closed")) ] /\
  last (trace (run probe_device (EndaceSSH.save_config None None None)
                 (mkProbe false true false true)))
  = Some (Ev (super_save_config "configuration write" false "") (inr "saved")) /\
  trace (run probe_device (EndaceSSH.save_config None None None)
           (mkProbe false true false true))
  = Ev (super_enable "enable" "" None IGNORECASE) (inr "# ")
    :: trace (run probe_device (EndaceSSH.config_mode None None None)
                (mkProbe false true false true))
    ++ [Ev (super_save_config "configuration write" false "") (inr "saved")].
Proof.
  split; [|split; [|split; [|split]]].
  - exact (proj1 (endace_save_config_from_config_mode probe_device
                    None None None (mkProbe false true false true))).
  - exact (proj1 (endace_save_config_from_config_mode probe_device
                    None None None (mkProbe false true false false))).
  - exact (proj1 (endace_save_config_from_config_mode dead_device
                    None None None ())).
  - destruct (endace_save_config_from_config_mode probe_device
                None None None (mkProbe false true false true))
      as (_ & _ & Hcheck & Hsave & _).
    destruct (Hcheck "# " (mkProbe false true false true) eq_refl) as [_ _].
    exact (proj2 (proj2 (Hsave "# " (mkProbe false true false true)
                           (warning_text +:+ "YES") eq_refl eq_refl))).
  - destruct (endace_save_config_from_config_mode probe_device
                None None None (mkProbe false true false true))
      as (_ & _ & _ & _ & Honly).
    assert (Ev (super_save_config "configuration write" false "") (inr "saved")
            ∈ trace (run probe_device (EndaceSSH.save_config None None None)
                       (mkProbe false true false true)))
      as He by (vm_compute; repeat constructor).
    destruct (Honly _ He eq_refl) as (en & w1 & out & r & Hen & _ & _ & _ & Ht).
    injection Hen as <- <-. exact Ht.
Defined.
